(** * tools/ape_submodule_workflow.py: a shallow embedding and its properties

    The script drives [git] and a review tool ([glab] or [gh]) over the
    submodules of a repository.  Everything it does goes through a handful
    of calls into the operating system: [subprocess.run], [shutil.which],
    [pathlib] and [configparser].  Those calls are the fields of the class
    [Platform]; the script itself is written over them in a state and
    exception monad whose state holds the outside world, the global [DEBUG]
    flag, the two output streams and the list of processes that were run. *)

From Stdlib Require Import String Ascii List ZArith Bool Lia.
From Stdlib Require Import DecimalString.
Import ListNotations.
Open Scope string_scope.
Open Scope Z_scope.

(** ** Python strings

    A [string] is read as a sequence of code points below 256, one per
    [ascii]. *)

Module PyStr.

Definition code (c : ascii) : nat := nat_of_ascii c.

(** [str.isspace] on one code point below 256. *)
Definition isspace (c : ascii) : bool :=
  let n := code c in
  ((9 <=? n) && (n <=? 13) || (28 <=? n) && (n <=? 32)
   || (n =? 133) || (n =? 160))%nat.

(** The line boundaries of [str.splitlines] below 256, the carriage return
    apart (it is handled with the line feed that may follow it). *)
Definition islinebreak (c : ascii) : bool :=
  let n := code c in
  ((n =? 10) || (n =? 11) || (n =? 12) || (n =? 28) || (n =? 29)
   || (n =? 30) || (n =? 133))%nat.

Definition iscr (c : ascii) : bool := (code c =? 13)%nat.
Definition islf (c : ascii) : bool := (code c =? 10)%nat.

Fixpoint dropwhile (p : ascii -> bool) (l : list ascii) : list ascii :=
  match l with
  | [] => []
  | c :: rest => if p c then dropwhile p rest else l
  end.

Definition strip_by (p : ascii -> bool) (s : string) : string :=
  string_of_list_ascii
    (rev (dropwhile p (rev (dropwhile p (list_ascii_of_string s))))).

(** [s.strip()] *)
Definition strip (s : string) : string := strip_by isspace s.

(** [s.strip(chars)] *)
Definition strip_chars (chars : string) (s : string) : string :=
  strip_by (fun c => existsb (Ascii.eqb c) (list_ascii_of_string chars)) s.

Fixpoint splitlines_from (cur : string) (s : string) : list string :=
  match s with
  | EmptyString => match cur with EmptyString => [] | _ => [cur] end
  | String c rest =>
      if iscr c then
        match rest with
        | String c2 rest2 =>
            if islf c2 then cur :: splitlines_from EmptyString rest2
            else cur :: splitlines_from EmptyString rest
        | EmptyString => [cur]
        end
      else if islinebreak c then cur :: splitlines_from EmptyString rest
      else splitlines_from (cur ++ String c EmptyString) rest
  end.

(** [s.splitlines()] *)
Definition splitlines (s : string) : list string :=
  splitlines_from EmptyString s.

(** [s.split(" ", 1)[-1]]: what follows the first space, or all of [s]. *)
Fixpoint after_first_space (s : string) : option string :=
  match s with
  | EmptyString => None
  | String c rest =>
      if Ascii.eqb c " "%char then Some rest else after_first_space rest
  end.

Definition split1_last (s : string) : string :=
  match after_first_space s with
  | Some rest => rest
  | None => s
  end.

(** [needle in s] *)
Fixpoint contains (needle : string) (s : string) : bool :=
  if prefix needle s then true
  else match s with
       | EmptyString => false
       | String _ rest => contains needle rest
       end.

(** [s.endswith(suffix)] *)
Definition endswith (suffix : string) (s : string) : bool :=
  let n := String.length s in
  let k := String.length suffix in
  (k <=? n)%nat && String.eqb (substring (n - k) k s) suffix.

(** [str.lower] on one code point below 256: A-Z, and the Latin-1 capitals
    but the multiplication sign. *)
Definition lower_char (c : ascii) : ascii :=
  let n := code c in
  if ((65 <=? n) && (n <=? 90)
      || (192 <=? n) && (n <=? 222) && negb (n =? 215))%nat
  then ascii_of_nat (n + 32) else c.

Fixpoint lower (s : string) : string :=
  match s with
  | EmptyString => EmptyString
  | String c rest => String (lower_char c) (lower rest)
  end.

(** Truth value of a string, and [a or b]. *)
Definition truthy (s : string) : bool :=
  match s with EmptyString => false | _ => true end.

Definition or_else (a b : string) : string := if truthy a then a else b.

(** [sep.join(l)] *)
Definition join (sep : string) (l : list string) : string :=
  String.concat sep l.

(** [str(n)] for an integer. *)
Definition of_Z (n : Z) : string := NilZero.string_of_int (Z.to_int n).

Definition dquote : string := String (ascii_of_nat 34) EmptyString.

End PyStr.

(** ** The outside world *)

Definition Path := string.

(** [subprocess.CompletedProcess]: what a finished process leaves. *)
Record CompletedProcess := mkCompleted {
  returncode : Z;
  stdout : string;
  stderr : string
}.

Class Platform := {
  (** the file system, the repositories in it, the remotes, the programs on
      the search path *)
  World : Type;
  (** [subprocess.run(cmd, ...)] *)
  subprocess_run : list string -> World -> CompletedProcess * World;
  (** whether [shutil.which(prog)] finds a program *)
  which : string -> World -> bool;
  (** [path.resolve()] *)
  path_resolve : Path -> World -> Path;
  (** [path.exists()] *)
  path_exists : Path -> World -> bool;
  (** [root / name] *)
  path_join : Path -> string -> Path;
  (** [path.relative_to(root)], [None] where pathlib raises [ValueError] *)
  relative_to : Path -> Path -> option string;
  (** [configparser]: the sections of a file in file order, each with the
      value of its key ["path"] *)
  config_read : Path -> World -> list (string * option string);
  (** [repr] of a list of strings *)
  repr_list : list string -> string
}.

(** One process that was run, with what it returned. *)
Inductive Event := Exec (cmd : list string) (result : CompletedProcess).

Definition event_cmd (e : Event) : list string :=
  match e with Exec cmd _ => cmd end.

Definition event_result (e : Event) : CompletedProcess :=
  match e with Exec _ r => r end.

(** The exceptions of the script: its own [WorkflowError], and the
    [ValueError] of [Path.relative_to]. *)
Inductive exn :=
| WorkflowError (msg : string)
| ValueError (msg : string).

Inductive outcome (A : Type) :=
| Ok (a : A)
| Raise (e : exn).
Arguments Ok {A} a.
Arguments Raise {A} e.

(** [@dataclass class Submodule] *)
Record Submodule := mkSubmodule {
  name : string;
  path : Path
}.

(** The subcommands of [parse_args] with their own options. *)
Inductive Command :=
| CmdStatus
| CmdBranch (branch_name : string) (base : option string) (remote : string)
    (force : bool)
| CmdPush (remote : string) (set_upstream : bool)
| CmdMr (target : string) (title : option string) (draft : bool)
| CmdUpdateParent.

(** The namespace [parse_args] returns. *)
Record Args := mkArgs {
  repo_root : Path;
  include_clean : bool;
  modules : option (list string);
  verbose : bool;
  command : Command
}.

Section Workflow.
Context {P : Platform}.

(** The state of a run. *)
Record State := mkState {
  world : World;
  DEBUG : bool;
  trace : list Event;
  sys_stdout : list string;
  sys_stderr : list string
}.

Definition M (A : Type) : Type := State -> outcome A * State.

Definition ret {A} (a : A) : M A := fun s => (Ok a, s).

Definition bind {A B} (m : M A) (k : A -> M B) : M B :=
  fun s =>
    match m s with
    | (Ok a, s') => k a s'
    | (Raise e, s') => (Raise e, s')
    end.

Definition raise {A} (e : exn) : M A := fun s => (Raise e, s).

(** [try: body except WorkflowError as exc: handler(exc)] *)
Definition try_except {A} (body : M A) (handler : string -> M A) : M A :=
  fun s =>
    match body s with
    | (Raise (WorkflowError msg), s') => handler msg s'
    | r => r
    end.

End Workflow.

Declare Scope py_scope.
Delimit Scope py_scope with py.
Notation "x <- m ;; k" := (bind m (fun x => k))
  (at level 100, m at next level, right associativity) : py_scope.
Notation "m ;; k" := (bind m (fun _ => k))
  (at level 100, right associativity) : py_scope.
Open Scope py_scope.

Section Script.
Context {P : Platform}.

(** *** State changes of the primitive actions *)

Definition st_print (line : string) (s : State) : State :=
  mkState (world s) (DEBUG s) (trace s) (sys_stdout s ++ [line]) (sys_stderr s).

Definition st_eprint (line : string) (s : State) : State :=
  mkState (world s) (DEBUG s) (trace s) (sys_stdout s) (sys_stderr s ++ [line]).

Definition st_set_debug (b : bool) (s : State) : State :=
  mkState (world s) b (trace s) (sys_stdout s) (sys_stderr s).

Definition st_exec (cmd : list string) (s : State) : State :=
  let (r, w) := subprocess_run cmd (world s) in
  mkState w (DEBUG s) (trace s ++ [Exec cmd r]) (sys_stdout s) (sys_stderr s).

Definition exec_result (cmd : list string) (s : State) : CompletedProcess :=
  fst (subprocess_run cmd (world s)).

(** [print(line)] and [print(line, file=sys.stderr)] *)
Definition print (line : string) : M unit := fun s => (Ok tt, st_print line s).
Definition eprint (line : string) : M unit := fun s => (Ok tt, st_eprint line s).

(** [subprocess.run(cmd, ...)] *)
Definition subprocess (cmd : list string) : M CompletedProcess :=
  fun s => (Ok (exec_result cmd s), st_exec cmd s).

(** Reading the world. *)
Definition ask {A} (f : World -> A) : M A := fun s => (Ok (f (world s)), s).

Fixpoint for_each {A} (l : list A) (body : A -> M unit) : M unit :=
  match l with
  | [] => ret tt
  | x :: rest => body x ;; for_each rest body
  end.

(** *** The script *)

Definition debug (msg : string) : M unit :=
  fun s =>
    if DEBUG s then eprint ("[submodule-workflow] " ++ msg) s else (Ok tt, s).

Definition git_cmd (directory : Path) (args : list string) : list string :=
  "git" :: "-C" :: directory :: args.

(** The text a failed command is reported with. *)
Definition diagnostic (result : CompletedProcess) : string :=
  PyStr.or_else (PyStr.strip (stderr result)) (PyStr.strip (stdout result)).

Definition run_git (directory : Path) (args : list string) (check : bool)
  : M CompletedProcess :=
  let cmd := git_cmd directory args in
  debug ("Executing: " ++ PyStr.join " " cmd) ;;
  result <- subprocess cmd ;;
  if check && negb (returncode result =? 0) then
    raise (WorkflowError (diagnostic result))
  else ret result.

Definition ensure_repo (p : Path) : M Path :=
  root <- ask (path_resolve p) ;;
  found <- ask (path_exists (path_join root ".gitmodules")) ;;
  if negb found then
    raise (WorkflowError
             ("Expected to find a .gitmodules file in " ++ root
              ++ "; is this the ape repository?"))
  else ret root.

(** The loop of [load_submodules] over the sections of the manifest. *)
Fixpoint load_submodules_loop (root : Path)
    (sections : list (string * option string)) (submodules : list Submodule)
  : list Submodule :=
  match sections with
  | [] => submodules
  | (section, p) :: rest =>
      match p with
      | Some p' =>
          if PyStr.truthy p' then
            load_submodules_loop root rest
              (submodules
               ++ [mkSubmodule
                     (PyStr.strip_chars PyStr.dquote (PyStr.split1_last section))
                     (path_join root p')])
          else load_submodules_loop root rest submodules
      | None => load_submodules_loop root rest submodules
      end
  end.

Definition load_submodules (root : Path) : M (list Submodule) :=
  sections <- ask (config_read (path_join root ".gitmodules")) ;;
  ret (load_submodules_loop root sections []).

(** What [git_status_lines] makes of a finished status query. *)
Definition status_lines (result : CompletedProcess) : list string :=
  if negb (returncode result =? 0) then []
  else filter (fun line => PyStr.truthy (PyStr.strip line))
              (PyStr.splitlines (stdout result)).

Definition git_status_lines (p : Path) : M (list string) :=
  result <- run_git p ["status"; "--porcelain"] false ;;
  ret (status_lines result).

(** Truth value of a list. *)
Definition nonempty {A} (l : list A) : bool :=
  match l with [] => false | _ => true end.

(** The loop of [changed_submodules], with the list [dirty] it appends to. *)
Fixpoint changed_submodules_loop (submodules : list Submodule)
    (include_clean : bool) (dirty : list Submodule) : M (list Submodule) :=
  match submodules with
  | [] => ret dirty
  | submodule :: rest =>
      lines <- git_status_lines (path submodule) ;;
      (if nonempty lines || include_clean then
         debug ("Submodule " ++ name submodule ++ " status: " ++ repr_list lines)
       else ret tt) ;;
      changed_submodules_loop rest include_clean
        (if nonempty lines then dirty ++ [submodule] else dirty)
  end.

Definition changed_submodules (submodules : list Submodule)
    (include_clean : bool) : M (list Submodule) :=
  changed_submodules_loop submodules include_clean [].

(** What [get_current_branch] makes of a finished query. *)
Definition current_of (result : CompletedProcess) : option string :=
  if negb (returncode result =? 0) then None
  else
    let branch := PyStr.strip (stdout result) in
    if String.eqb branch "HEAD" then None else Some branch.

Definition get_current_branch (p : Path) : M (option string) :=
  result <- run_git p ["rev-parse"; "--abbrev-ref"; "HEAD"] false ;;
  ret (current_of result).

(** [current == branch] for an optional [current]. *)
Definition option_eqb (o : option string) (b : string) : bool :=
  match o with Some s => String.eqb s b | None => false end.

Definition ensure_branch (p : Path) (branch : string) (base : option string)
    (remote : string) (force : bool) : M string :=
  current <- get_current_branch p ;;
  if option_eqb current branch then ret branch
  else
    existing <- run_git p ["rev-parse"; "--verify"; branch] false ;;
    if returncode existing =? 0 then
      debug ("Branch " ++ branch ++ " already exists; checking it out.") ;;
      run_git p ["checkout"; branch] true ;;
      ret branch
    else
      status <- git_status_lines p ;;
      (match base with
       | Some base' =>
           if PyStr.truthy base' && negb (nonempty status) then
             debug ("Checking out base branch " ++ base' ++ " before creating "
                    ++ branch ++ ".") ;;
             run_git p ["fetch"; remote; base'] false ;;
             run_git p ["checkout"; base'] true ;;
             run_git p ["pull"; remote; base'] false ;;
             ret tt
           else ret tt
       | None => ret tt
       end) ;;
      let checkout_args := ["checkout"; if force then "-B" else "-b"; branch] in
      debug ("Creating branch " ++ branch ++ " using args: "
             ++ repr_list checkout_args) ;;
      run_git p checkout_args true ;;
      ret branch.

Definition push_branch (p : Path) (branch remote : string)
    (set_upstream : bool) : M unit :=
  let args :=
    if set_upstream then ["push"; "-u"; remote; branch]
    else ["push"; remote; branch] in
  run_git p args true ;;
  ret tt.

Definition detect_mr_tool (remote_url : string) : M (option string) :=
  let remote_url := PyStr.lower remote_url in
  ask (fun w =>
    if PyStr.contains "gitlab" remote_url && which "glab" w then Some "glab"
    else if (PyStr.contains "github" remote_url
             || PyStr.endswith ".git" remote_url) && which "gh" w
    then Some "gh"
    else if which "glab" w then Some "glab"
    else if which "gh" w then Some "gh"
    else None).

(** [title or branch] *)
Definition title_or (title : option string) (branch : string) : string :=
  match title with
  | Some t => if PyStr.truthy t then t else branch
  | None => branch
  end.

(** [if title: cmd += ["--title", title]] and
    [if draft: cmd.append("--draft")] *)
Definition title_args (title : option string) : list string :=
  match title with
  | Some t => if PyStr.truthy t then ["--title"; t] else []
  | None => []
  end.

Definition draft_args (draft : bool) : list string :=
  if draft then ["--draft"] else [].

(** The command line [create_merge_request] builds for [tool]. *)
Definition mr_command (tool branch target : string) (title : option string)
    (draft : bool) : list string :=
  if String.eqb tool "glab" then
    ["glab"; "mr"; "create"; "--source-branch"; branch; "--target-branch";
     target] ++ title_args title ++ draft_args draft
  else
    ["gh"; "pr"; "create"; "--head"; branch; "--base"; target]
    ++ title_args title ++ draft_args draft.

Definition create_merge_request (p : Path) (branch target : string)
    (title : option string) (draft : bool) : M unit :=
  origin <- run_git p ["remote"; "get-url"; "origin"] true ;;
  let remote_url := PyStr.strip (stdout origin) in
  tool <- detect_mr_tool remote_url ;;
  match tool with
  | None =>
      eprint "No supported CLI (glab or gh) detected. Please create the merge request manually." ;;
      print ("Suggested title: " ++ title_or title branch) ;;
      ret tt
  | Some tool' =>
      let cmd := mr_command tool' branch target title draft in
      debug ("Running MR command: " ++ PyStr.join " " cmd) ;;
      completed <- subprocess cmd ;;
      if negb (returncode completed =? 0) then
        raise (WorkflowError
                 ("Merge request command failed with exit code "
                  ++ PyStr.of_Z (returncode completed) ++ "."))
      else ret tt
  end.

(** [str(path.relative_to(root))] *)
Definition relative (p root : Path) : M string :=
  match relative_to p root with
  | Some rel => ret rel
  | None => raise (ValueError (p ++ " is not in the subpath of " ++ root))
  end.

Definition update_parent (root : Path) (submodules : list Submodule) : M unit :=
  for_each submodules (fun module =>
    rel <- relative (path module) root ;;
    run_git root ["add"; rel] true ;;
    ret tt).

(** A Python [dict] from names to submodules, in insertion order; a key
    that is set again keeps its place and takes the new value. *)
Fixpoint dict_set (d : list (string * Submodule)) (k : string) (v : Submodule)
  : list (string * Submodule) :=
  match d with
  | [] => [(k, v)]
  | (k', v') :: rest =>
      if String.eqb k' k then (k', v) :: rest
      else (k', v') :: dict_set rest k v
  end.

Fixpoint dict_get (d : list (string * Submodule)) (k : string)
  : option Submodule :=
  match d with
  | [] => None
  | (k', v') :: rest => if String.eqb k' k then Some v' else dict_get rest k
  end.

Definition dict_has (d : list (string * Submodule)) (k : string) : bool :=
  match dict_get d k with Some _ => true | None => false end.

Definition name_map_of (submodules : list Submodule)
  : list (string * Submodule) :=
  fold_left (fun d module => dict_set d (name module) module) submodules [].

(** [[name_map[name] for name in names]] *)
Fixpoint lookup_all (d : list (string * Submodule)) (names : list string)
  : list Submodule :=
  match names with
  | [] => []
  | n :: rest =>
      match dict_get d n with
      | Some module => module :: lookup_all d rest
      | None => lookup_all d rest
      end
  end.

Definition resolve_targets (root : Path) (submodules : list Submodule)
    (names : option (list string)) : M (list Submodule) :=
  match names with
  | None => ret submodules
  | Some [] => ret submodules
  | Some names' =>
      let name_map := name_map_of submodules in
      let missing := filter (fun n => negb (dict_has name_map n)) names' in
      if nonempty missing then
        raise (WorkflowError
                 ("Unknown submodule(s): " ++ PyStr.join ", " missing))
      else ret (lookup_all name_map names')
  end.

Definition handle_status (root : Path) (target_modules : list Submodule)
    (include_clean : bool) : M unit :=
  modules <- (if include_clean then ret target_modules
              else changed_submodules target_modules false) ;;
  if negb (nonempty modules) then print "No dirty submodules detected."
  else
    for_each modules (fun module =>
      lines <- git_status_lines (path module) ;;
      print (name module ++ " (" ++ path module ++ "):") ;;
      if nonempty lines then
        for_each lines (fun line => print ("  " ++ line))
      else print "  clean").

(** The body of the loop of [handle_branch]. *)
Definition branch_step (branch_name : string) (base : option string)
    (remote : string) (force : bool) (module : Submodule) : M unit :=
  branch <- ensure_branch (path module) branch_name base remote force ;;
  print ("Checked out " ++ branch ++ " in " ++ name module ++ " ("
         ++ path module ++ ").").

Definition handle_branch (root : Path) (target_modules : list Submodule)
    (branch_name : string) (base : option string) (remote : string)
    (force : bool) : M unit :=
  modules <- changed_submodules target_modules false ;;
  if negb (nonempty modules) then
    print "No dirty submodules detected; nothing to branch."
  else for_each modules (branch_step branch_name base remote force).

(** The body of the loop of [handle_push]. *)
Definition push_step (remote : string) (set_upstream : bool)
    (module : Submodule) : M unit :=
  branch <- get_current_branch (path module) ;;
  match branch with
  | Some branch' =>
      if PyStr.truthy branch' then
        push_branch (path module) branch' remote set_upstream ;;
        print ("Pushed " ++ name module ++ " (" ++ path module ++ ") to "
               ++ remote ++ "/" ++ branch' ++ ".")
      else
        raise (WorkflowError
                 ("Submodule " ++ name module
                  ++ " is in a detached HEAD state; cannot push without a branch."))
  | None =>
      raise (WorkflowError
               ("Submodule " ++ name module
                ++ " is in a detached HEAD state; cannot push without a branch."))
  end.

Definition handle_push (root : Path) (target_modules : list Submodule)
    (remote : string) (set_upstream : bool) : M unit :=
  modules <- changed_submodules target_modules false ;;
  if negb (nonempty modules) then
    print "No dirty submodules detected; nothing to push."
  else for_each modules (push_step remote set_upstream).

(** The body of the loop of [handle_mr]. *)
Definition mr_step (target : string) (title : option string) (draft : bool)
    (module : Submodule) : M unit :=
  branch <- get_current_branch (path module) ;;
  match branch with
  | Some branch' =>
      if PyStr.truthy branch' then
        create_merge_request (path module) branch' target title draft ;;
        print ("Triggered merge request creation for " ++ name module ++ " ("
               ++ branch' ++ " -> " ++ target ++ ").")
      else
        raise (WorkflowError
                 ("Submodule " ++ name module
                  ++ " does not have an active branch; create one before opening an MR."))
  | None =>
      raise (WorkflowError
               ("Submodule " ++ name module
                ++ " does not have an active branch; create one before opening an MR."))
  end.

Definition handle_mr (root : Path) (target_modules : list Submodule)
    (target : string) (title : option string) (draft : bool) : M unit :=
  modules <- changed_submodules target_modules false ;;
  if negb (nonempty modules) then
    print "No dirty submodules detected; no merge requests created."
  else for_each modules (mr_step target title draft).

Definition handle_update_parent (root : Path) (target_modules : list Submodule)
  : M unit :=
  modules <- changed_submodules target_modules false ;;
  if negb (nonempty modules) then
    print "No dirty submodules detected; nothing to stage in the parent."
  else
    update_parent root modules ;;
    for_each modules (fun module =>
      rel <- relative (path module) root ;;
      print ("Staged updated hash for " ++ name module ++ " (" ++ rel ++ ").")).

(** The body of the [try] in [main]. *)
Definition run (args : Args) : M Z :=
  root <- ensure_repo (repo_root args) ;;
  submodules <- load_submodules root ;;
  if negb (nonempty submodules) then
    print "No submodules registered in .gitmodules." ;;
    ret 0
  else
    targets <- resolve_targets root submodules (modules args) ;;
    (match command args with
     | CmdStatus => handle_status root targets (include_clean args)
     | CmdBranch branch_name base remote force =>
         handle_branch root targets branch_name base remote force
     | CmdPush remote set_upstream =>
         handle_push root targets remote set_upstream
     | CmdMr target title draft => handle_mr root targets target title draft
     | CmdUpdateParent => handle_update_parent root targets
     end) ;;
    ret 0.

(** [global DEBUG; DEBUG = value] *)
Definition set_DEBUG (value : bool) : M unit :=
  fun s => (Ok tt, st_set_debug value s).

Definition main (args : Args) : M Z :=
  set_DEBUG (verbose args) ;;
  try_except (run args)
    (fun exc => eprint ("Error: " ++ exc) ;; ret 1).

End Script.

(** ** Vocabulary of the statements *)

Section Vocabulary.
Context {P : Platform}.

(** The state [debug msg] leaves. *)
Definition st_debug (msg : string) (s : State) : State :=
  if DEBUG s then st_eprint ("[submodule-workflow] " ++ msg) s else s.

(** The state [run_git directory args] leaves, and what git returned. *)
Definition st_git (directory : Path) (args : list string) (s : State) : State :=
  st_exec (git_cmd directory args)
    (st_debug ("Executing: " ++ PyStr.join " " (git_cmd directory args)) s).

Definition git_result (directory : Path) (args : list string) (s : State)
  : CompletedProcess :=
  exec_result (git_cmd directory args) s.

(** The world after the processes of a trace have run, in order. *)
Fixpoint replay (evs : list Event) (w : World) : World :=
  match evs with
  | [] => w
  | Exec cmd _ :: rest => replay rest (snd (subprocess_run cmd w))
  end.

(** Every event of a trace holds what the process returned when it ran, the
    first of them in world [w]. *)
Fixpoint answers (evs : list Event) (w : World) : Prop :=
  match evs with
  | [] => True
  | Exec cmd r :: rest =>
      r = fst (subprocess_run cmd w)
      /\ answers rest (snd (subprocess_run cmd w))
  end.

(** The exception an outcome carries. *)
Definition raised {A} (r : outcome A) : option exn :=
  match r with Ok _ => None | Raise e => Some e end.

(** A property of outcomes and traces that a computation which does nothing
    has, and that sequencing keeps: what was added before a normal return
    may be put in front. *)
Definition closed (T : option exn -> list Event -> Prop) : Prop :=
  T None []
  /\ forall o evs1 evs2, T None evs1 -> T o evs2 -> T o (evs1 ++ evs2)%list.

(** [emits T m]: whatever the state, what [m] adds to the trace satisfies
    [T] together with the exception [m] raised (if any) and holds the
    answers of the platform, nothing is taken from the trace, the world [m]
    leaves is the one those processes left, and the [DEBUG] flag is as it
    was. *)
Definition emits {A} (T : option exn -> list Event -> Prop) (m : M A) : Prop :=
  forall s, exists evs : list Event,
    trace (snd (m s)) = (trace s ++ evs)%list
    /\ T (raised (fst (m s))) evs
    /\ answers evs (world s)
    /\ world (snd (m s)) = replay evs (world s)
    /\ DEBUG (snd (m s)) = DEBUG s.

(** Every event satisfies [ok], whatever the outcome. *)
Definition all (ok : Event -> Prop) : option exn -> list Event -> Prop :=
  fun _ evs => Forall ok evs.

(** A git command run in directory [p]. *)
Definition in_dir (p : Path) (e : Event) : Prop :=
  exists args, event_cmd e = git_cmd p args.

(** A run of one of the two review tools. *)
Definition is_review (e : Event) : Prop :=
  exists tool rest, event_cmd e = tool :: rest /\ (tool = "glab" \/ tool = "gh").

(** The status query on a submodule, as an event. *)
Definition status_cmd (p : Path) : list string :=
  git_cmd p ["status"; "--porcelain"].

Definition status_event (mr : Submodule * CompletedProcess) : Event :=
  Exec (status_cmd (path (fst mr))) (snd mr).

(** The scanner's classification of a finished status query. *)
Definition is_dirty (result : CompletedProcess) : bool :=
  nonempty (status_lines result).

Definition dirty_of (scanned : list (Submodule * CompletedProcess))
  : list Submodule :=
  map fst (filter (fun mr => is_dirty (snd mr)) scanned).

(** A line with nothing but white space on it. *)
Definition blank (line : string) : Prop := PyStr.strip line = "".

Definition current_branch_cmd (p : Path) : list string :=
  git_cmd p ["rev-parse"; "--abbrev-ref"; "HEAD"].

(** A [git checkout] run in directory [p]. *)
Definition is_checkout (p : Path) (e : Event) : Prop :=
  exists rest, event_cmd e = git_cmd p ("checkout" :: rest).

(** Not a checkout in [p] that failed. *)
Definition passes (p : Path) (e : Event) : Prop :=
  is_checkout p e -> returncode (event_result e) = 0.

(** The way [ensure_branch] ends: normally when no checkout failed, and
    with the diagnostic of the checkout that failed right after it. *)
Definition aborts_at_checkout (p : Path) : option exn -> list Event -> Prop :=
  fun o evs =>
    match o with
    | None => Forall (passes p) evs
    | Some x =>
        exists pre e,
          evs = (pre ++ [e])%list
          /\ Forall (passes p) pre
          /\ is_checkout p e
          /\ returncode (event_result e) <> 0
          /\ x = WorkflowError (diagnostic (event_result e))
    end.

(** The three commands of [ensure_branch] that put [branch] in place. *)
Definition checkouts_of (branch : string) : list (list string) :=
  [["checkout"; branch]; ["checkout"; "-b"; branch]; ["checkout"; "-B"; branch]].

(** What is assumed of git for the idempotence of [ensure_branch]: asking
    for the current branch changes nothing, and a checkout of [branch] in
    [p] that succeeds leaves [branch] as the current branch. *)
Definition head_query_reads_only (p : Path) : Prop :=
  forall w, snd (subprocess_run (current_branch_cmd p) w) = w.

Definition checkout_moves_head (p : Path) (branch : string) : Prop :=
  forall w args,
    In args (checkouts_of branch) ->
    returncode (fst (subprocess_run (git_cmd p args) w)) = 0 ->
    current_of
      (fst (subprocess_run (current_branch_cmd p)
              (snd (subprocess_run (git_cmd p args) w))))
    = Some branch.

(** The lower-cased remote URL holds the name of the hosting service that
    [tool] is the client of. *)
Definition hosted_by (tool : string) (remote_url : string) : Prop :=
  (tool = "glab" /\ PyStr.contains "gitlab" (PyStr.lower remote_url) = true)
  \/ (tool = "gh" /\ PyStr.contains "github" (PyStr.lower remote_url) = true).

Definition review_tool (tool : string) : Prop := tool = "glab" \/ tool = "gh".

Definition origin_args : list string := ["remote"; "get-url"; "origin"].

(** The names of a target list that the registry does not hold. *)
Definition unknown_names (submodules : list Submodule) (names : list string)
  : list string :=
  filter (fun n => negb (existsb (String.eqb n) (map name submodules))) names.

(** The command stages the path of [m] in the parent repository. *)
Definition stages (root : Path) (m : Submodule) (e : Event) : Prop :=
  exists rel,
    relative_to (path m) root = Some rel
    /\ event_cmd e = git_cmd root ["add"; rel].

(** The processes of a per-target operation on one of the submodules in
    [dirty]: a git command in the directory of one of them, the staging of
    one of them in the parent, or a run of a review tool that follows the
    query for the remote URL of one of them. *)
Inductive ops_for (root : Path) (dirty : list Submodule) : list Event -> Prop :=
| ops_nil : ops_for root dirty []
| ops_git m e rest :
    In m dirty -> in_dir (path m) e \/ stages root m e ->
    ops_for root dirty rest -> ops_for root dirty (e :: rest)
| ops_review m e1 e2 rest :
    In m dirty -> event_cmd e1 = git_cmd (path m) origin_args ->
    is_review e2 ->
    ops_for root dirty rest -> ops_for root dirty (e1 :: e2 :: rest).

(** The error of [handle_push] for a submodule without a branch. *)
Definition detached_message (m : Submodule) : string :=
  "Submodule " ++ name m
  ++ " is in a detached HEAD state; cannot push without a branch.".

(** *** Further vocabulary *)

(** A status query in the directory of one of [targets]. *)
Definition is_status_of (targets : list Submodule) (e : Event) : Prop :=
  exists m, In m targets /\ event_cmd e = status_cmd (path m).

(** Nothing is raised, and only status queries on [targets] are run. *)
Definition only_status (targets : list Submodule)
  : option exn -> list Event -> Prop :=
  fun o evs => o = None /\ Forall (is_status_of targets) evs.

(** Two states that differ at most in what was written to the error
    stream. *)
Definition same_but_stderr (s s' : State) : Prop :=
  world s = world s' /\ trace s = trace s' /\ sys_stdout s = sys_stdout s'
  /\ DEBUG s = DEBUG s'.

(** The error of [ensure_repo]. *)
Definition missing_manifest_message (root : Path) : string :=
  "Expected to find a .gitmodules file in " ++ root
  ++ "; is this the ape repository?".

(** The entry [load_submodules] makes of one section of the manifest:
    none when the section has no path or an empty one. *)
Definition entry_of (root : Path) (sec : string * option string)
  : option Submodule :=
  match snd sec with
  | Some p =>
      if PyStr.truthy p then
        Some (mkSubmodule
                (PyStr.strip_chars PyStr.dquote (PyStr.split1_last (fst sec)))
                (path_join root p))
      else None
  | None => None
  end.

(** The entries of a list of sections, in order. *)
Fixpoint entries_of (root : Path) (sections : list (string * option string))
  : list Submodule :=
  match sections with
  | [] => []
  | sec :: rest =>
      match entry_of root sec with
      | Some m => m :: entries_of root rest
      | None => entries_of root rest
      end
  end.

(** The header git writes for the submodule [n]. *)
Definition section_header (n : string) : string :=
  "submodule " ++ PyStr.dquote ++ n ++ PyStr.dquote.

(** The character [c] is a double quote. *)
Definition is_dquote (c : ascii) : bool :=
  existsb (Ascii.eqb c) (list_ascii_of_string PyStr.dquote).

(** The last submodule of the registry with the name [n]. *)
Definition last_named (submodules : list Submodule) (n : string)
  : option Submodule :=
  find (fun m => String.eqb (name m) n) (rev submodules).

(** The arguments [push_branch] passes to git. *)
Definition push_args (remote branch : string) (set_upstream : bool)
  : list string :=
  if set_upstream then ["push"; "-u"; remote; branch]
  else ["push"; remote; branch].

Definition pushed_line (remote branch : string) (m : Submodule) : string :=
  "Pushed " ++ name m ++ " (" ++ path m ++ ") to " ++ remote ++ "/" ++ branch
  ++ ".".

(** The error of [handle_mr] for a submodule without a branch. *)
Definition no_branch_message (m : Submodule) : string :=
  "Submodule " ++ name m
  ++ " does not have an active branch; create one before opening an MR.".

Definition checked_out_line (branch : string) (m : Submodule) : string :=
  "Checked out " ++ branch ++ " in " ++ name m ++ " (" ++ path m ++ ").".

Definition staged_line (m : Submodule) (rel : string) : string :=
  "Staged updated hash for " ++ name m ++ " (" ++ rel ++ ").".

Definition advice_line : string :=
  "No supported CLI (glab or gh) detected. Please create the merge request manually.".

(** [keeps R m]: whatever the state and the outcome, the state [m] leaves
    is related by [R] to the one it started in. *)
Definition keeps {A} (R : State -> State -> Prop) (m : M A) : Prop :=
  forall s, R s (snd (m s)).

Definition preorder (R : State -> State -> Prop) : Prop :=
  (forall s, R s s) /\ (forall a b c, R a b -> R b c -> R a c).

(** The standard output is as it was. *)
Definition same_stdout (s s' : State) : Prop := sys_stdout s' = sys_stdout s.

(** With [DEBUG] off, it stays off and the error stream receives nothing
    but the advice of [create_merge_request]. *)
Definition quiet (s s' : State) : Prop :=
  DEBUG s = false ->
  DEBUG s' = false
  /\ exists lines,
       sys_stderr s' = (sys_stderr s ++ lines)%list
       /\ Forall (eq advice_line) lines.

(** A relation that the logging and the running of a process keep. *)
Definition local (R : State -> State -> Prop) : Prop :=
  preorder R
  /\ (forall msg s, R s (st_debug msg s))
  /\ (forall cmd s, R s (st_exec cmd s)).

(** The staging of the path [rel] in the parent, as an event. *)
Definition add_event (root : Path) (sr : string * CompletedProcess) : Event :=
  Exec (git_cmd root ["add"; fst sr]) (snd sr).

(** The path [rel] is the one of [m] relative to the root, and staging it
    succeeded. *)
Definition staged_ok (root : Path) (m : Submodule)
    (sr : string * CompletedProcess) : Prop :=
  relative_to (path m) root = Some (fst sr) /\ returncode (snd sr) = 0.

(** What [handle_status] prints for a submodule whose status query
    returned [r]: the header, then the status lines behind two spaces, or
    the word [clean]. *)
Definition status_block (mr : Submodule * CompletedProcess) : list string :=
  (name (fst mr) ++ " (" ++ path (fst mr) ++ "):")
  :: (if nonempty (status_lines (snd mr))
      then map (fun line => "  " ++ line) (status_lines (snd mr))
      else ["  clean"]).

(** The subcommands of git the script uses. *)
Definition git_subcommands : list string :=
  ["status"; "rev-parse"; "checkout"; "fetch"; "pull"; "push"; "remote"; "add"].

(** A process the script may run: git with one of these subcommands in
    some directory, or a review tool. *)
Definition allowed (e : Event) : Prop :=
  (exists d sub rest,
      event_cmd e = git_cmd d (sub :: rest) /\ In sub git_subcommands)
  \/ is_review e.

End Vocabulary.

(** ** A small concrete platform

    A world of a few repositories and enough of git to run the script on,
    used to evaluate the script on concrete inputs. *)

Module Demo.

Definition nl : string := String (ascii_of_nat 10) EmptyString.

Record Repo := mkRepo {
  dir : Path;
  head : option string;          (* [None]: detached *)
  branches : list string;
  porcelain : string;            (* what [git status --porcelain] prints *)
  origin : option string;
  remote_up : bool               (* fetch, pull and push succeed *)
}.

Record Disk := mkDisk {
  repos : list Repo;
  files : list Path;
  manifest : list (string * option string);
  programs : list string;
  staged : list string
}.

Definition mem (x : string) (l : list string) : bool :=
  existsb (String.eqb x) l.

Definition find_repo (d : Path) (w : Disk) : option Repo :=
  find (fun r => String.eqb (dir r) d) (repos w).

Definition put_repo (r : Repo) (w : Disk) : Disk :=
  mkDisk (map (fun r' => if String.eqb (dir r') (dir r) then r else r') (repos w))
         (files w) (manifest w) (programs w) (staged w).

Definition switch (b : string) (r : Repo) : Repo :=
  mkRepo (dir r) (Some b)
         (if mem b (branches r) then branches r else branches r ++ [b])
         (porcelain r) (origin r) (remote_up r).

Definition done (out : string) : CompletedProcess := mkCompleted 0 out "".
Definition failed (rc : Z) (msg : string) : CompletedProcess :=
  mkCompleted rc "" msg.

Definition git (r : Repo) (args : list string) (w : Disk)
  : CompletedProcess * Disk :=
  match args with
  | ["status"; "--porcelain"] => (done (porcelain r), w)
  | ["rev-parse"; "--abbrev-ref"; "HEAD"] =>
      (done (match head r with Some b => b | None => "HEAD" end ++ nl), w)
  | ["rev-parse"; "--verify"; b] =>
      if mem b (branches r) then (done ("4b825dc642cb6eb9a060e54bf8d69288fbee4904" ++ nl), w)
      else (failed 128 ("fatal: Needed a single revision" ++ nl), w)
  | ["checkout"; b] =>
      if mem b (branches r) then (done "", put_repo (switch b r) w)
      else (failed 1 ("error: pathspec '" ++ b ++ "' did not match any file(s) known to git" ++ nl), w)
  | ["checkout"; "-b"; b] =>
      if mem b (branches r) then
        (failed 128 ("fatal: a branch named '" ++ b ++ "' already exists" ++ nl), w)
      else (done "", put_repo (switch b r) w)
  | ["checkout"; "-B"; b] => (done "", put_repo (switch b r) w)
  | ["fetch"; _; _] | ["pull"; _; _] | ["push"; _; _] | ["push"; "-u"; _; _] =>
      if remote_up r then (done "", w)
      else (failed 128 ("fatal: unable to access the remote" ++ nl), w)
  | ["remote"; "get-url"; "origin"] =>
      match origin r with
      | Some url => (done (url ++ nl), w)
      | None => (failed 2 ("error: No such remote 'origin'" ++ nl), w)
      end
  | ["add"; p] =>
      (done "", mkDisk (repos w) (files w) (manifest w) (programs w)
                       (staged w ++ [p]))
  | _ => (failed 129 "usage: git", w)
  end.

Definition run (cmd : list string) (w : Disk) : CompletedProcess * Disk :=
  match cmd with
  | "git" :: "-C" :: d :: args =>
      match find_repo d w with
      | Some r => git r args w
      | None => (failed 128 ("fatal: cannot change to '" ++ d ++ "'"), w)
      end
  | prog :: _ =>
      if mem prog (programs w) then (done "", w)
      else (failed 127 "command not found", w)
  | [] => (failed 127 "command not found", w)
  end.

Definition join (root : Path) (p : string) : Path :=
  if prefix "/" p then p else root ++ "/" ++ p.

Definition rel (p root : Path) : option string :=
  if String.eqb p root then Some "."
  else if prefix (root ++ "/") p then
    Some (substring (S (String.length root))
                    (String.length p - S (String.length root)) p)
  else None.

Definition repr (l : list string) : string :=
  "[" ++ String.concat ", " (map (fun x => "'" ++ x ++ "'") l) ++ "]".

#[export] Instance platform : Platform := {|
  World := Disk;
  subprocess_run := run;
  which := fun prog w => mem prog (programs w);
  path_resolve := fun p _ => p;
  path_exists := fun p w => mem p (files w);
  path_join := join;
  relative_to := rel;
  config_read := fun p w => if mem p (files w) then manifest w else [];
  repr_list := repr
|}.

Definition start (w : Disk) : State := mkState w false [] [] [].

(** A parent repository at [/ape] with two submodules: [lib] has local
    changes and sits on [main]; [docs] is clean. *)
Definition lib : Repo :=
  mkRepo "/ape/vendor/lib" (Some "main") ["main"]
    (" M src/a.c" ++ nl ++ "?? notes.txt" ++ nl)
    (Some "git@gitlab.example.org:ape/lib.git") true.

Definition docs : Repo :=
  mkRepo "/ape/docs" (Some "main") ["main"] "" (Some "https://github.com/ape/docs") true.

Definition parent : Repo :=
  mkRepo "/ape" (Some "main") ["main"] (" M vendor/lib" ++ nl) None true.

Definition disk : Disk :=
  mkDisk [parent; lib; docs] ["/ape/.gitmodules"]
    [("submodule " ++ PyStr.dquote ++ "lib" ++ PyStr.dquote, Some "vendor/lib");
     ("submodule " ++ PyStr.dquote ++ "docs" ++ PyStr.dquote, Some "docs")]
    ["git"; "glab"] [].

Definition m_lib : Submodule := mkSubmodule "lib" "/ape/vendor/lib".
Definition m_docs : Submodule := mkSubmodule "docs" "/ape/docs".

Definition section_of (n : string) : string :=
  "submodule " ++ PyStr.dquote ++ n ++ PyStr.dquote.

(** The same parent with a manifest that declares nothing. *)
Definition bare : Disk :=
  mkDisk [parent] ["/ape/.gitmodules"] [] ["git"; "glab"] [].

(** [docs] is clean and its remote cannot be reached. *)
Definition offline : Disk :=
  mkDisk
    [parent; lib;
     mkRepo "/ape/docs" (Some "trunk") ["trunk"; "main"] ""
       (Some "https://github.com/ape/docs") false]
    ["/ape/.gitmodules"]
    [(section_of "lib", Some "vendor/lib"); (section_of "docs", Some "docs")]
    ["git"; "glab"] [].

(** A submodule whose declared path is absolute and outside the parent. *)
Definition outside : Disk :=
  mkDisk
    [parent; mkRepo "/srv/ext" (Some "main") ["main"] (" M x" ++ nl) None true]
    ["/ape/.gitmodules"] [(section_of "ext", Some "/srv/ext")] ["git"] [].

(** Three submodules with local changes; the second has a detached HEAD. *)
Definition three : Disk :=
  mkDisk
    [parent;
     mkRepo "/ape/a" (Some "topic") ["main"; "topic"] (" M a" ++ nl) None true;
     mkRepo "/ape/b" None ["main"] (" M b" ++ nl) None true;
     mkRepo "/ape/c" (Some "topic") ["main"; "topic"] (" M c" ++ nl) None true]
    ["/ape/.gitmodules"]
    [(section_of "a", Some "a"); (section_of "b", Some "b");
     (section_of "c", Some "c")]
    ["git"] [].

Definition m_a : Submodule := mkSubmodule "a" "/ape/a".
Definition m_b : Submodule := mkSubmodule "b" "/ape/b".
Definition m_c : Submodule := mkSubmodule "c" "/ape/c".

Definition args_of (names : option (list string)) (c : Command) : Args :=
  mkArgs "/ape" false names false c.

(** States reached on the way of two runs. *)
Definition lib_branched : State :=
  snd (ensure_branch "/ape/vendor/lib" "feature-x" None "origin" false
         (start disk)).

Definition three_scanned : State :=
  snd (changed_submodules [m_a; m_b; m_c] false (start three)).

Definition three_pushed_a : State :=
  snd (for_each [m_a] (push_step "origin" true) three_scanned).

Definition three_asked_b : State :=
  snd (get_current_branch "/ape/b" three_pushed_a).

(** A directory that is no parent repository: the manifest is missing. *)
Definition no_manifest : Disk :=
  mkDisk [parent] [] [] ["git"] [].

(** Both review tools are installed. *)
Definition both_tools : Disk :=
  mkDisk [parent; lib; docs] ["/ape/.gitmodules"]
    [(section_of "lib", Some "vendor/lib"); (section_of "docs", Some "docs")]
    ["git"; "glab"; "gh"] [].

(** A registry in which the name [lib] is declared twice. *)
Definition m_lib_again : Submodule := mkSubmodule "lib" "/ape/vendor/lib2".
Definition twins : list Submodule := [m_lib; m_docs; m_lib_again].

(** States reached on the way of further runs. *)
Definition docs_scanned : State :=
  snd (changed_submodules [m_docs] false (start disk)).

Definition both_scanned : State :=
  snd (changed_submodules [m_lib; m_docs] false (start disk)).

Definition bc_scanned : State :=
  snd (changed_submodules [m_b; m_c] false (start three)).

Definition bc_asked_b : State :=
  snd (get_current_branch "/ape/b" bc_scanned).

End Demo.

(** * Properties *)

Open Scope list_scope.

(** ** The monad and the primitive actions *)

Section Basics.
Context {P : Platform}.

Lemma bind_ok {A B} (m : M A) (k : A -> M B) s a s' :
  m s = (Ok a, s') -> bind m k s = k a s'.
Proof. intros H. unfold bind. now rewrite H. Qed.

Lemma bind_raise {A B} (m : M A) (k : A -> M B) s e s' :
  m s = (Raise e, s') -> bind m k s = (Raise e, s').
Proof. intros H. unfold bind. now rewrite H. Qed.

Lemma debug_eq msg s : debug msg s = (Ok tt, st_debug msg s).
Proof. unfold debug, st_debug, eprint. now destruct (DEBUG s). Qed.

Lemma world_st_debug msg s : world (st_debug msg s) = world s.
Proof. unfold st_debug. now destruct (DEBUG s). Qed.

Lemma trace_st_debug msg s : trace (st_debug msg s) = trace s.
Proof. unfold st_debug. now destruct (DEBUG s). Qed.

Lemma DEBUG_st_debug msg s : DEBUG (st_debug msg s) = DEBUG s.
Proof. unfold st_debug. now destruct (DEBUG s) eqn:E. Qed.

Lemma stdout_st_debug msg s : sys_stdout (st_debug msg s) = sys_stdout s.
Proof. unfold st_debug. now destruct (DEBUG s). Qed.

Lemma world_st_exec cmd s :
  world (st_exec cmd s) = snd (subprocess_run cmd (world s)).
Proof. unfold st_exec. now destruct (subprocess_run cmd (world s)). Qed.

Lemma trace_st_exec cmd s :
  trace (st_exec cmd s) = trace s ++ [Exec cmd (exec_result cmd s)].
Proof.
  unfold st_exec, exec_result. now destruct (subprocess_run cmd (world s)).
Qed.

Lemma DEBUG_st_exec cmd s : DEBUG (st_exec cmd s) = DEBUG s.
Proof. unfold st_exec. now destruct (subprocess_run cmd (world s)). Qed.

Lemma stdout_st_exec cmd s : sys_stdout (st_exec cmd s) = sys_stdout s.
Proof. unfold st_exec. now destruct (subprocess_run cmd (world s)). Qed.

Lemma stderr_st_exec cmd s : sys_stderr (st_exec cmd s) = sys_stderr s.
Proof. unfold st_exec. now destruct (subprocess_run cmd (world s)). Qed.

Lemma exec_result_st_debug cmd msg s :
  exec_result cmd (st_debug msg s) = exec_result cmd s.
Proof. unfold exec_result. now rewrite world_st_debug. Qed.

Lemma world_st_git d args s :
  world (st_git d args s) = snd (subprocess_run (git_cmd d args) (world s)).
Proof. unfold st_git. now rewrite world_st_exec, world_st_debug. Qed.

Lemma trace_st_git d args s :
  trace (st_git d args s)
  = trace s ++ [Exec (git_cmd d args) (git_result d args s)].
Proof.
  unfold st_git, git_result.
  now rewrite trace_st_exec, trace_st_debug, exec_result_st_debug.
Qed.

Lemma DEBUG_st_git d args s : DEBUG (st_git d args s) = DEBUG s.
Proof. unfold st_git. now rewrite DEBUG_st_exec, DEBUG_st_debug. Qed.

Lemma stdout_st_git d args s : sys_stdout (st_git d args s) = sys_stdout s.
Proof. unfold st_git. now rewrite stdout_st_exec, stdout_st_debug. Qed.

(** [run_git] with [check=False] never raises. *)
Lemma run_git_unchecked d args s :
  run_git d args false s = (Ok (git_result d args s), st_git d args s).
Proof.
  unfold run_git, st_git, git_result.
  rewrite (bind_ok _ _ _ _ _ (debug_eq _ s)).
  unfold bind, subprocess, ret. cbn.
  now rewrite exec_result_st_debug.
Qed.

(** [run_git] with [check=True] raises exactly on a non-zero exit status,
    with the diagnostic text of the command. *)
Lemma run_git_checked d args s :
  run_git d args true s
  = (if returncode (git_result d args s) =? 0
     then Ok (git_result d args s)
     else Raise (WorkflowError (diagnostic (git_result d args s))),
     st_git d args s).
Proof.
  unfold run_git, st_git, git_result.
  rewrite (bind_ok _ _ _ _ _ (debug_eq _ s)).
  unfold bind, subprocess, ret, raise. cbn.
  rewrite exec_result_st_debug.
  now destruct (returncode _ =? 0).
Qed.

Lemma replay_app evs1 evs2 w :
  replay (evs1 ++ evs2) w = replay evs2 (replay evs1 w).
Proof.
  revert w. induction evs1 as [|[cmd r] evs1 IH]; intros w; cbn; auto.
Qed.

End Basics.

Create Rewrite HintDb state.
#[export] Hint Rewrite @world_st_debug @trace_st_debug @DEBUG_st_debug
  @stdout_st_debug @world_st_exec @trace_st_exec @DEBUG_st_exec
  @stdout_st_exec @stderr_st_exec @exec_result_st_debug
  @trace_st_git @DEBUG_st_git @stdout_st_git : state.

(** ** Status scanner *)

Section Scanner.
Context {P : Platform}.

Lemma git_status_lines_eq p s :
  git_status_lines p s
  = (Ok (status_lines (git_result p ["status"; "--porcelain"] s)),
     st_git p ["status"; "--porcelain"] s).
Proof.
  unfold git_status_lines.
  now rewrite (bind_ok _ _ _ _ _ (run_git_unchecked _ _ s)).
Qed.

Lemma dropwhile_nil p l :
  PyStr.dropwhile p l = [] <-> forallb p l = true.
Proof.
  induction l as [|c l IH]; cbn; [tauto|].
  destruct (p c); cbn; [exact IH | split; discriminate].
Qed.

Lemma string_of_list_ascii_nil l : string_of_list_ascii l = "" <-> l = [].
Proof. destruct l; cbn; split; congruence. Qed.

(** A line is blank exactly when white space is all it holds. *)
Lemma blank_iff_spaces line :
  blank line <-> forallb PyStr.isspace (list_ascii_of_string line) = true.
Proof.
  unfold blank, PyStr.strip, PyStr.strip_by.
  set (l := list_ascii_of_string line).
  rewrite string_of_list_ascii_nil. split.
  - intros H. apply dropwhile_nil.
    destruct (PyStr.dropwhile PyStr.isspace l) as [|c rest] eqn:E;
      [reflexivity|].
    assert (H' : PyStr.dropwhile PyStr.isspace (rev (c :: rest)) = []).
    { apply (f_equal (@rev ascii)) in H. now rewrite rev_involutive in H. }
    apply dropwhile_nil in H'. rewrite forallb_forall in H'.
    assert (Hc : PyStr.isspace c = true).
    { apply H', in_rev. rewrite rev_involutive. now left. }
    assert (Hn : PyStr.isspace c = false).
    { clear - E. induction l as [|x l IH]; [discriminate|].
      cbn in E. destruct (PyStr.isspace x) eqn:Ex; [now apply IH|].
      now inversion E; subst. }
    congruence.
  - intros H. apply dropwhile_nil in H. now rewrite H.
Qed.

Lemma truthy_false s : PyStr.truthy s = false <-> s = "".
Proof. destruct s; cbn; split; congruence. Qed.

Lemma nonempty_filter_false {A} (f : A -> bool) l :
  nonempty (filter f l) = false <-> forall x, In x l -> f x = false.
Proof.
  induction l as [|a l IH]; cbn.
  - split; [intros _ x [] | reflexivity].
  - destruct (f a) eqn:E; cbn.
    + split; [discriminate|]. intros H. specialize (H a (or_introl eq_refl)).
      congruence.
    + rewrite IH. split.
      * intros H x [<-|Hx]; auto.
      * intros H x Hx. apply H. now right.
Qed.

(** A status query is classified clean exactly when it failed or printed
    nothing but blank lines. *)
Lemma is_dirty_false result :
  is_dirty result = false
  <-> (returncode result <> 0
       \/ forall line, In line (PyStr.splitlines (stdout result)) -> blank line).
Proof.
  unfold is_dirty, status_lines, blank.
  destruct (returncode result =? 0) eqn:E; cbn.
  - apply Z.eqb_eq in E. rewrite nonempty_filter_false. split.
    + intros H. right. intros line Hl. now apply truthy_false, H.
    + intros [H|H] line Hl; [congruence|]. now apply truthy_false, H.
  - apply Z.eqb_neq in E. tauto.
Qed.

Lemma is_dirty_true result :
  is_dirty result = true
  <-> (returncode result = 0
       /\ exists line, In line (PyStr.splitlines (stdout result))
                       /\ ~ blank line).
Proof.
  unfold is_dirty, status_lines, blank.
  destruct (returncode result =? 0) eqn:E; cbn.
  - apply Z.eqb_eq in E. split.
    + intros H. split; [assumption|].
      destruct (filter _ _) as [|line rest] eqn:F; [discriminate|].
      assert (Hin : In line (filter (fun l => PyStr.truthy (PyStr.strip l))
                                    (PyStr.splitlines (stdout result))))
        by (rewrite F; now left).
      apply filter_In in Hin. destruct Hin as [Hin Ht].
      exists line. split; [assumption|]. intros Hb. rewrite Hb in Ht.
      discriminate.
    + intros [_ [line [Hin Hb]]].
      destruct (nonempty _) eqn:N; [reflexivity|].
      rewrite nonempty_filter_false in N. specialize (N line Hin).
      apply truthy_false in N. contradiction.
  - apply Z.eqb_neq in E. split; [discriminate|]. intros [H _]. contradiction.
Qed.

Lemma dirty_of_cons m r scanned :
  dirty_of ((m, r) :: scanned)
  = if is_dirty r then m :: dirty_of scanned else dirty_of scanned.
Proof. unfold dirty_of. cbn. now destruct (is_dirty r). Qed.

(** The loop of [changed_submodules] from any accumulator. *)
Lemma changed_submodules_loop_spec submodules include_clean :
  forall dirty s, exists results s',
    changed_submodules_loop submodules include_clean dirty s
    = (Ok (dirty ++ dirty_of (combine submodules results)), s')
    /\ length results = length submodules
    /\ trace s' = trace s ++ map status_event (combine submodules results)
    /\ answers (map status_event (combine submodules results)) (world s)
    /\ world s' = replay (map status_event (combine submodules results)) (world s)
    /\ DEBUG s' = DEBUG s
    /\ sys_stdout s' = sys_stdout s.
Proof.
  induction submodules as [|m rest IH]; intros dirty s.
  - exists [], s. cbn. rewrite !app_nil_r. auto 10.
  - cbn [changed_submodules_loop].
    rewrite (bind_ok _ _ _ _ _ (git_status_lines_eq _ s)).
    set (r := git_result (path m) ["status"; "--porcelain"] s).
    set (s1 := st_git (path m) ["status"; "--porcelain"] s).
    set (msg := ("Submodule " ++ name m ++ " status: "
                 ++ repr_list (status_lines r))%string).
    set (s2 := if nonempty (status_lines r) || include_clean
               then st_debug msg s1 else s1).
    assert (E2 : (if nonempty (status_lines r) || include_clean
                  then debug msg else ret tt) s1 = (Ok tt, s2)).
    { unfold s2. destruct (_ || _); [apply debug_eq | reflexivity]. }
    rewrite (bind_ok _ _ _ _ _ E2).
    destruct (IH (if nonempty (status_lines r) then dirty ++ [m] else dirty) s2)
      as (results & s' & Hrun & Hlen & Htr & Hans & Hw & Hd & Ho).
    assert (T2 : trace s2 = trace s ++ [Exec (status_cmd (path m)) r]).
    { unfold s2, s1, r, status_cmd.
      destruct (_ || _); autorewrite with state; reflexivity. }
    assert (W2 : world s2 = snd (subprocess_run (status_cmd (path m)) (world s))).
    { unfold s2, s1, status_cmd.
      destruct (_ || _); autorewrite with state; apply world_st_git. }
    assert (D2 : DEBUG s2 = DEBUG s).
    { unfold s2, s1. destruct (_ || _); autorewrite with state; reflexivity. }
    assert (O2 : sys_stdout s2 = sys_stdout s).
    { unfold s2, s1. destruct (_ || _); autorewrite with state; reflexivity. }
    exists (r :: results), s'. cbn [combine map length].
    rewrite dirty_of_cons. unfold is_dirty at 1.
    split; [|split; [|split; [|split; [|split; [|split]]]]].
    + rewrite Hrun. destruct (nonempty (status_lines r)); [|reflexivity].
      now rewrite <- app_assoc.
    + now rewrite Hlen.
    + rewrite Htr, T2, <- app_assoc. reflexivity.
    + cbn. split; [reflexivity | now rewrite <- W2].
    + rewrite Hw, W2. reflexivity.
    + congruence.
    + congruence.
Qed.

(** C1. Whatever the list of submodule entries and the state of the world,
    [changed_submodules] runs one status query per entry, in order, and
    returns exactly the entries whose query was classified dirty, in the
    order of the input (the trace holds the queries with what git answered
    to each); a query is classified clean exactly when it failed
    or printed no non-blank line, and dirty exactly when it succeeded and
    printed at least one non-blank line. *)
Theorem changed_submodules_exactly_dirty :
  forall (submodules : list Submodule) (include_clean : bool) (s : State),
    (exists results s',
        changed_submodules submodules include_clean s
        = (Ok (dirty_of (combine submodules results)), s')
        /\ length results = length submodules
        /\ trace s' = trace s ++ map status_event (combine submodules results)
        /\ answers (map status_event (combine submodules results)) (world s))
    /\ (forall result,
           is_dirty result = false
           <-> (returncode result <> 0
                \/ forall line, In line (PyStr.splitlines (stdout result))
                                -> blank line))
    /\ (forall result,
           is_dirty result = true
           <-> (returncode result = 0
                /\ exists line, In line (PyStr.splitlines (stdout result))
                                /\ ~ blank line)).
Proof.
  intros submodules include_clean s. split; [|split].
  - destruct (changed_submodules_loop_spec submodules include_clean [] s)
      as (results & s' & Hrun & Hlen & Htr & Hans & _).
    exists results, s'. auto.
  - apply is_dirty_false.
  - apply is_dirty_true.
Qed.

End Scanner.

(** ** What a computation adds to the trace *)

Section Emits.
Context {P : Platform}.

Lemma answers_app evs1 evs2 w :
  answers (evs1 ++ evs2) w
  <-> answers evs1 w /\ answers evs2 (replay evs1 w).
Proof.
  revert w. induction evs1 as [|[cmd r] evs1 IH]; intros w; cbn.
  - tauto.
  - rewrite IH. tauto.
Qed.

Lemma closed_all (ok : Event -> Prop) : closed (all ok).
Proof.
  split; [constructor|]. intros o evs1 evs2 H1 H2. apply Forall_app. auto.
Qed.

Lemma emits_silent {A} T (m : M A) :
  (forall s, T (raised (fst (m s))) []
             /\ trace (snd (m s)) = trace s
             /\ world (snd (m s)) = world s
             /\ DEBUG (snd (m s)) = DEBUG s) ->
  emits T m.
Proof.
  intros H s. destruct (H s) as (HT & Ht & Hw & Hd).
  exists []. rewrite app_nil_r. cbn. auto.
Qed.

Lemma emits_ret {A} T (a : A) : closed T -> emits T (ret a).
Proof. intros [C _]. apply emits_silent; cbn; auto. Qed.

Lemma emits_raise {A} T e : T (Some e) [] -> emits T (@raise P A e).
Proof. intros C. apply emits_silent; cbn; auto. Qed.

Lemma emits_print T line : closed T -> emits T (print line).
Proof. intros [C _]. apply emits_silent; cbn; auto. Qed.

Lemma emits_eprint T line : closed T -> emits T (eprint line).
Proof. intros [C _]. apply emits_silent; cbn; auto. Qed.

Lemma emits_ask {A} T (f : World -> A) : closed T -> emits T (ask f).
Proof. intros [C _]. apply emits_silent; cbn; auto. Qed.

Lemma emits_debug T msg : closed T -> emits T (debug msg).
Proof.
  intros [C _]. apply emits_silent. intros s.
  rewrite debug_eq. cbn. now autorewrite with state.
Qed.

Lemma emits_bind {A B} T (m : M A) (k : A -> M B) :
  closed T -> emits T m -> (forall a, emits T (k a)) -> emits T (bind m k).
Proof.
  intros [_ Happ] Hm Hk s. unfold bind.
  destruct (Hm s) as (evs1 & Ht1 & HT1 & Ha1 & Hw1 & Hd1).
  destruct (m s) as [[a|e] s1]; cbn in *.
  - destruct (Hk a s1) as (evs2 & Ht2 & HT2 & Ha2 & Hw2 & Hd2).
    exists (evs1 ++ evs2). rewrite Ht2, Ht1, app_assoc.
    split; [reflexivity|]. split; [auto|]. split.
    + apply answers_app. split; [assumption|]. now rewrite <- Hw1.
    + rewrite replay_app, <- Hw1. split; congruence.
  - exists evs1. auto.
Qed.

Lemma emits_weaken {A} (T T' : option exn -> list Event -> Prop) (m : M A) :
  (forall o evs, T o evs -> T' o evs) -> emits T m -> emits T' m.
Proof.
  intros H Hm s. destruct (Hm s) as (evs & ? & ? & ? & ? & ?).
  exists evs. auto 10.
Qed.

Lemma emits_for_each {A} T (l : list A) (body : A -> M unit) :
  closed T -> (forall x, In x l -> emits T (body x)) ->
  emits T (for_each l body).
Proof.
  intros C. induction l as [|x l IH]; intros H; cbn [for_each].
  - now apply emits_ret.
  - apply emits_bind; [assumption| |].
    + apply H. now left.
    + intros _. apply IH. intros y Hy. apply H. now right.
Qed.

(** [run_git]: one event; it raises exactly when it checks and git failed. *)
Lemma emits_run_git T d args check :
  (forall r, check = false \/ returncode r = 0 ->
             T None [Exec (git_cmd d args) r]) ->
  (forall r, check = true -> returncode r <> 0 ->
             T (Some (WorkflowError (diagnostic r))) [Exec (git_cmd d args) r]) ->
  emits T (run_git d args check).
Proof.
  intros Hok Hfail s. exists [Exec (git_cmd d args) (git_result d args s)].
  destruct check.
  - rewrite run_git_checked. cbn [fst snd].
    rewrite trace_st_git, world_st_git, DEBUG_st_git.
    split; [reflexivity|]. split.
    + destruct (returncode _ =? 0) eqn:E; cbn.
      * apply Hok. right. now apply Z.eqb_eq.
      * apply Hfail; [reflexivity | now apply Z.eqb_neq].
    + cbn. auto.
  - rewrite run_git_unchecked. cbn [fst snd].
    rewrite trace_st_git, world_st_git, DEBUG_st_git.
    split; [reflexivity|]. split; [apply Hok; now left|]. cbn. auto.
Qed.

Lemma in_dir_git p args r : in_dir p (Exec (git_cmd p args) r).
Proof. now exists args. Qed.

Lemma emits_run_git_in_dir p args check :
  emits (all (in_dir p)) (run_git p args check).
Proof.
  apply emits_run_git; intros; (constructor; [apply in_dir_git | constructor]).
Qed.

Lemma emits_git_status_lines p :
  emits (all (in_dir p)) (git_status_lines p).
Proof.
  unfold git_status_lines.
  apply emits_bind; [apply closed_all | apply emits_run_git_in_dir |].
  intros r. apply emits_ret, closed_all.
Qed.

Lemma emits_get_current_branch p :
  emits (all (in_dir p)) (get_current_branch p).
Proof.
  unfold get_current_branch.
  apply emits_bind; [apply closed_all | apply emits_run_git_in_dir |].
  intros r. apply emits_ret, closed_all.
Qed.

End Emits.

(** Goes through a computation of the script, one action at a time. *)
Ltac emits_step :=
  match goal with
  | |- closed (all _) => apply closed_all
  | |- emits _ (ret _) => apply emits_ret
  | |- emits _ (raise _) => apply emits_raise
  | |- emits _ (print _) => apply emits_print
  | |- emits _ (eprint _) => apply emits_eprint
  | |- emits _ (debug _) => apply emits_debug
  | |- emits _ (ask _) => apply emits_ask
  | |- emits (all (in_dir ?p)) (run_git ?p _ _) => apply emits_run_git_in_dir
  | |- emits (all (in_dir ?p)) (git_status_lines ?p) =>
      apply emits_git_status_lines
  | |- emits (all (in_dir ?p)) (get_current_branch ?p) =>
      apply emits_get_current_branch
  | |- emits _ (bind _ _) => apply emits_bind; [ | | intros ? ]
  | |- emits _ (if ?b then _ else _) => destruct b
  | |- emits _ (match ?o with Some _ => _ | None => _ end) => destruct o
  end.

Ltac emits_auto := repeat emits_step.

Section EmitsBranch.
Context {P : Platform}.

Lemma emits_ensure_branch p branch base remote force :
  emits (all (in_dir p)) (ensure_branch p branch base remote force).
Proof. unfold ensure_branch. cbv zeta. emits_auto. Qed.

Lemma emits_push_branch p branch remote set_upstream :
  emits (all (in_dir p)) (push_branch p branch remote set_upstream).
Proof. unfold push_branch. emits_auto. Qed.

End EmitsBranch.

(** ** Running the script by rewriting *)

Section Running.
Context {P : Platform}.

Lemma bind_ret {A B} (a : A) (k : A -> M B) s : bind (ret a) k s = k a s.
Proof. reflexivity. Qed.

Lemma bind_bind {A B C} (m : M A) (k1 : A -> M B) (k2 : B -> M C) s :
  bind (bind m k1) k2 s = bind m (fun a => bind (k1 a) k2) s.
Proof. unfold bind. now destruct (m s) as [[a|e] s1]. Qed.

Lemma bind_debug {B} msg (k : unit -> M B) s :
  bind (debug msg) k s = k tt (st_debug msg s).
Proof. apply bind_ok, debug_eq. Qed.

Lemma bind_run_git_unchecked {B} d args (k : CompletedProcess -> M B) s :
  bind (run_git d args false) k s = k (git_result d args s) (st_git d args s).
Proof. apply bind_ok, run_git_unchecked. Qed.

Lemma bind_run_git_checked {B} d args (k : CompletedProcess -> M B) s :
  bind (run_git d args true) k s
  = if returncode (git_result d args s) =? 0
    then k (git_result d args s) (st_git d args s)
    else (Raise (WorkflowError (diagnostic (git_result d args s))),
          st_git d args s).
Proof.
  unfold bind. rewrite run_git_checked. now destruct (returncode _ =? 0).
Qed.

Lemma get_current_branch_eq p s :
  get_current_branch p s
  = (Ok (current_of (git_result p ["rev-parse"; "--abbrev-ref"; "HEAD"] s)),
     st_git p ["rev-parse"; "--abbrev-ref"; "HEAD"] s).
Proof. unfold get_current_branch. now rewrite bind_run_git_unchecked. Qed.

Lemma bind_get_current_branch {B} p (k : option string -> M B) s :
  bind (get_current_branch p) k s
  = k (current_of (git_result p ["rev-parse"; "--abbrev-ref"; "HEAD"] s))
      (st_git p ["rev-parse"; "--abbrev-ref"; "HEAD"] s).
Proof. apply bind_ok, get_current_branch_eq. Qed.

Lemma bind_git_status_lines {B} p (k : list string -> M B) s :
  bind (git_status_lines p) k s
  = k (status_lines (git_result p ["status"; "--porcelain"] s))
      (st_git p ["status"; "--porcelain"] s).
Proof. apply bind_ok, git_status_lines_eq. Qed.

Lemma bind_inv_ok {A B} (m : M A) (k : A -> M B) s b s' :
  bind m k s = (Ok b, s') ->
  exists a s1, m s = (Ok a, s1) /\ k a s1 = (Ok b, s').
Proof.
  unfold bind. destruct (m s) as [[a|e] s1]; [|discriminate].
  intros H. now exists a, s1.
Qed.

(** A loop that went through [pre] goes on with the rest. *)
Lemma for_each_app {A} (pre rest : list A) (body : A -> M unit) s s2 :
  for_each pre body s = (Ok tt, s2) ->
  for_each (pre ++ rest) body s = for_each rest body s2.
Proof.
  revert s. induction pre as [|x pre IH]; intros s; cbn [for_each app].
  - unfold ret. congruence.
  - intros H. apply bind_inv_ok in H. destruct H as ([] & s1 & Hx & Hrest).
    rewrite (bind_ok _ _ _ _ _ Hx). now apply IH.
Qed.

Lemma option_eqb_true o b : option_eqb o b = true <-> o = Some b.
Proof.
  destruct o as [x|]; cbn; [|split; discriminate].
  rewrite String.eqb_eq. split; congruence.
Qed.

Lemma option_eqb_false o b : option_eqb o b = false <-> o <> Some b.
Proof.
  rewrite <- option_eqb_true. destruct (option_eqb o b); split; congruence.
Qed.

End Running.

Ltac run_step :=
  first
    [ rewrite bind_bind
    | rewrite bind_ret
    | rewrite bind_debug
    | rewrite bind_run_git_unchecked
    | rewrite bind_run_git_checked
    | rewrite bind_get_current_branch
    | rewrite bind_git_status_lines ].

Ltac run := repeat run_step.

(** Splits on the exit status the goal tests next. *)
Ltac split_rc E :=
  match goal with
  | |- context [if returncode ?r =? 0 then _ else _] =>
      destruct (returncode r =? 0) eqn:E
  end.

(** ** Branch manager *)

Section BranchManager.
Context {P : Platform}.

(** C2. [ensure_branch] asks git three questions at most, in this order:
    the current branch, whether the requested name resolves, and the
    status of the working tree; and it acts on the first case that
    applies.
    (1) The current branch has the requested name: the only process run is
    the query, and the call returns the name.
    (2) Otherwise the name resolves: the branch is checked out, nothing
    else.
    (3) Otherwise a base was given and the working tree is clean: the base
    is fetched from the remote, checked out and pulled, then the branch is
    created.
    (4) Otherwise the branch is created at once.
    The branch is created with [checkout -B] when [force] is set and with
    [checkout -b] otherwise; a checkout that fails ends the call with its
    diagnostic, and the trace lists the processes in the order they ran. *)
Theorem ensure_branch_case_order :
  forall (p : Path) (branch : string) (base : option string) (remote : string)
         (force : bool) (s : State),
    let q1 := ["rev-parse"; "--abbrev-ref"; "HEAD"] in
    let q2 := ["rev-parse"; "--verify"; branch] in
    let q3 := ["status"; "--porcelain"] in
    let r1 := git_result p q1 s in
    let s1 := st_git p q1 s in
    let r2 := git_result p q2 s1 in
    let s2 := st_git p q2 s1 in
    let r3 := git_result p q3 s2 in
    let create := ["checkout"; if force then "-B" else "-b"; branch] in
    let checked (r : CompletedProcess) : outcome string :=
      if returncode r =? 0 then Ok branch
      else Raise (WorkflowError (diagnostic r)) in
    let run := ensure_branch p branch base remote force s in
    (current_of r1 = Some branch ->
     run = (Ok branch, s1)
     /\ trace s1 = trace s ++ [Exec (git_cmd p q1) r1])
    /\ (current_of r1 <> Some branch -> returncode r2 = 0 ->
        exists r,
          fst run = checked r
          /\ trace (snd run)
             = trace s ++ [Exec (git_cmd p q1) r1; Exec (git_cmd p q2) r2;
                           Exec (git_cmd p ["checkout"; branch]) r])
    /\ (current_of r1 <> Some branch -> returncode r2 <> 0 ->
        forall base', base = Some base' -> base' <> "" ->
        status_lines r3 = [] ->
        exists r_fetch r_base,
          let asked :=
            [Exec (git_cmd p q1) r1; Exec (git_cmd p q2) r2;
             Exec (git_cmd p q3) r3;
             Exec (git_cmd p ["fetch"; remote; base']) r_fetch;
             Exec (git_cmd p ["checkout"; base']) r_base] in
          (returncode r_base <> 0 ->
           fst run = Raise (WorkflowError (diagnostic r_base))
           /\ trace (snd run) = trace s ++ asked)
          /\ (returncode r_base = 0 ->
              exists r_pull r,
                fst run = checked r
                /\ trace (snd run)
                   = trace s ++ asked
                     ++ [Exec (git_cmd p ["pull"; remote; base']) r_pull;
                         Exec (git_cmd p create) r]))
    /\ (current_of r1 <> Some branch -> returncode r2 <> 0 ->
        (base = None \/ base = Some "" \/ status_lines r3 <> []) ->
        exists r,
          fst run = checked r
          /\ trace (snd run)
             = trace s ++ [Exec (git_cmd p q1) r1; Exec (git_cmd p q2) r2;
                           Exec (git_cmd p q3) r3; Exec (git_cmd p create) r]).
Proof.
  intros p branch base remote force s q1 q2 q3 r1 s1 r2 s2 r3 create checked
    run.
  assert (T1 : trace s1 = trace s ++ [Exec (git_cmd p q1) r1])
    by apply trace_st_git.
  assert (T2 : trace s2 = trace s ++ [Exec (git_cmd p q1) r1;
                                     Exec (git_cmd p q2) r2]).
  { unfold s2. rewrite trace_st_git, T1, <- app_assoc. reflexivity. }
  split; [|split; [|split]].
  - intros H1. split; [|exact T1].
    unfold run, ensure_branch. rewrite bind_get_current_branch.
    fold q1 r1 s1. apply option_eqb_true in H1. now rewrite H1.
  - intros H1 H2. apply option_eqb_false in H1.
    unfold run, ensure_branch. rewrite bind_get_current_branch.
    fold q1 r1 s1. rewrite H1. rewrite bind_run_git_unchecked.
    fold q2 r2 s2. apply Z.eqb_eq in H2. rewrite H2.
    run. set (s2' := st_debug _ s2).
    exists (git_result p ["checkout"; branch] s2').
    unfold checked.
    destruct (returncode (git_result p ["checkout"; branch] s2') =? 0);
      unfold ret; cbn [fst snd]; (split; [reflexivity|]);
      rewrite trace_st_git; unfold s2'; rewrite trace_st_debug, T2,
        <- app_assoc; reflexivity.
  - intros H1 H2 base' Hb Hne Hst. apply option_eqb_false in H1.
    unfold run, ensure_branch. rewrite bind_get_current_branch.
    fold q1 r1 s1. rewrite H1. rewrite bind_run_git_unchecked.
    fold q2 r2 s2. apply Z.eqb_neq in H2. rewrite H2.
    rewrite bind_git_status_lines. fold q3 r3. rewrite Hst, Hb.
    assert (Ht : PyStr.truthy base' = true) by (destruct base'; [now elim Hne | reflexivity]).
    rewrite Ht. cbn [nonempty negb andb].
    run.
    set (s3 := st_git p q3 s2).
    assert (T3 : trace s3 = trace s ++ [Exec (git_cmd p q1) r1;
                                       Exec (git_cmd p q2) r2;
                                       Exec (git_cmd p q3) r3]).
    { unfold s3. rewrite trace_st_git, T2, <- app_assoc. reflexivity. }
    set (s3' := st_debug _ s3).
    set (s4 := st_git p ["fetch"; remote; base'] s3').
    set (r_base := git_result p ["checkout"; base'] s4).
    set (s5 := st_git p ["checkout"; base'] s4).
    assert (T5 : trace s5
                 = trace s ++ [Exec (git_cmd p q1) r1; Exec (git_cmd p q2) r2;
                               Exec (git_cmd p q3) r3;
                               Exec (git_cmd p ["fetch"; remote; base'])
                                    (git_result p ["fetch"; remote; base'] s3');
                               Exec (git_cmd p ["checkout"; base']) r_base]).
    { unfold s5, s4. rewrite !trace_st_git. unfold s3'.
      rewrite trace_st_debug, T3, <- !app_assoc. reflexivity. }
    set (s6 := st_git p ["pull"; remote; base'] s5).
    set (s6' := st_debug _ s6).
    exists (git_result p ["fetch"; remote; base'] s3'), r_base.
    cbv zeta. split.
    + intros Hrb. apply Z.eqb_neq in Hrb. rewrite Hrb. cbn [fst snd].
      split; [reflexivity | exact T5].
    + intros Hrb. apply Z.eqb_eq in Hrb. rewrite Hrb.
      exists (git_result p ["pull"; remote; base'] s5),
             (git_result p create s6').
      unfold checked, create.
      destruct (returncode (git_result p _ s6') =? 0); unfold ret;
        cbn [fst snd]; (split; [reflexivity|]);
        rewrite trace_st_git; unfold s6'; rewrite trace_st_debug; unfold s6;
        rewrite trace_st_git, T5, <- !app_assoc; reflexivity.
  - intros H1 H2 Hskip. apply option_eqb_false in H1.
    unfold run, ensure_branch. rewrite bind_get_current_branch.
    fold q1 r1 s1. rewrite H1. rewrite bind_run_git_unchecked.
    fold q2 r2 s2. apply Z.eqb_neq in H2. rewrite H2.
    rewrite bind_git_status_lines. fold q3 r3.
    set (s3 := st_git p q3 s2).
    assert (T3 : trace s3 = trace s ++ [Exec (git_cmd p q1) r1;
                                       Exec (git_cmd p q2) r2;
                                       Exec (git_cmd p q3) r3]).
    { unfold s3. rewrite trace_st_git, T2, <- app_assoc. reflexivity. }
    assert (E : forall B (k : unit -> M B),
               bind
                 match base with
                 | Some base' =>
                     if PyStr.truthy base' && negb (nonempty (status_lines r3))
                     then
                       debug ("Checking out base branch " ++ base'
                              ++ " before creating " ++ branch ++ ".") ;;
                       run_git p ["fetch"; remote; base'] false ;;
                       run_git p ["checkout"; base'] true ;;
                       run_git p ["pull"; remote; base'] false ;;
                       ret tt
                     else ret tt
                 | None => ret tt
                 end k s3 = k tt s3).
    { intros B k. destruct Hskip as [-> | [-> | Hst]]; try reflexivity.
      destruct base as [base'|]; [|reflexivity].
      destruct (status_lines r3); [now elim Hst|].
      cbn [nonempty negb]. now rewrite andb_false_r. }
    rewrite E. run. set (s3' := st_debug _ s3).
    exists (git_result p create s3').
    unfold checked, create.
    destruct (returncode (git_result p _ s3') =? 0); unfold ret;
      cbn [fst snd]; (split; [reflexivity|]);
      rewrite trace_st_git; unfold s3'; rewrite trace_st_debug, T3,
        <- !app_assoc; reflexivity.
Qed.

End BranchManager.

Section CheckoutFailures.
Context {P : Platform}.

Lemma closed_aborts_at_checkout p : closed (aborts_at_checkout p).
Proof.
  split; [constructor|]. intros [x|] evs1 evs2 H1 H2; cbn in *.
  - destruct H2 as (pre & e & -> & Hpre & Hc & Hrc & Hx).
    exists (evs1 ++ pre), e. rewrite app_assoc.
    split; [reflexivity|]. split; [now apply Forall_app|]. auto.
  - now apply Forall_app.
Qed.

Lemma git_cmd_inj p args args' : git_cmd p args = git_cmd p args' -> args = args'.
Proof. unfold git_cmd. congruence. Qed.

(** A command that is run unchecked and is no checkout ends normally. *)
Lemma emits_unchecked_other p args :
  (forall rest, args <> "checkout" :: rest) ->
  emits (aborts_at_checkout p) (run_git p args false).
Proof.
  intros Hne. apply emits_run_git.
  - intros r _. cbn. constructor; [|constructor].
    intros [rest Hc]. cbn in Hc. apply git_cmd_inj in Hc. now elim (Hne rest).
  - discriminate.
Qed.

(** A checkout that is run checked ends the call exactly when it fails. *)
Lemma emits_checked_checkout p rest :
  emits (aborts_at_checkout p) (run_git p ("checkout" :: rest) true).
Proof.
  apply emits_run_git.
  - intros r [H|H]; [discriminate|]. cbn. constructor; [|constructor].
    intros _. exact H.
  - intros r _ Hr. cbn. exists [], (Exec (git_cmd p ("checkout" :: rest)) r).
    cbn. split; [reflexivity|]. split; [constructor|].
    split; [now exists rest|]. auto.
Qed.

Lemma emits_ensure_branch_aborts p branch base remote force :
  emits (aborts_at_checkout p) (ensure_branch p branch base remote force).
Proof.
  pose proof (closed_aborts_at_checkout p) as C.
  unfold ensure_branch, get_current_branch, git_status_lines. cbv zeta.
  repeat match goal with
    | |- emits _ (ret _) => apply emits_ret; exact C
    | |- emits _ (debug _) => apply emits_debug; exact C
    | |- emits _ (run_git _ ("checkout" :: _) true) =>
        apply emits_checked_checkout
    | |- emits _ (run_git _ _ false) =>
        apply emits_unchecked_other; intros rest; discriminate
    | |- emits _ (bind _ _) => apply emits_bind; [exact C | | intros ?]
    | |- emits _ (if ?b then _ else _) => destruct b
    | |- emits _ (match ?o with Some _ => _ | None => _ end) => destruct o
    end.
Qed.

Lemma branch_step_raise branch base remote force m s x s' :
  ensure_branch (path m) branch base remote force s = (Raise x, s') ->
  branch_step branch base remote force m s = (Raise x, s').
Proof. intros H. unfold branch_step. now rewrite (bind_raise _ _ _ _ _ H). Qed.

(** C3, as the code has it. In [ensure_branch] only the checkout commands
    are checked: the checkout of an existing branch, the checkout of the
    base, and the checkout that creates the branch. When one of them exits
    with a non-zero status the call raises a workflow error that carries
    the diagnostic text of that command, and that command is the last
    process run; what the earlier processes did stays, the world being the
    one they left. Nothing else raises: the queries, the fetch and the
    pull may fail without an error. And the error ends the [branch]
    command where it was raised: [handle_branch] raises it in the very
    state [ensure_branch] left, the submodules that come later untouched. *)
Theorem ensure_branch_checkout_failure_aborts :
  forall (p : Path) (branch : string) (base : option string) (remote : string)
         (force : bool) (s : State),
    let run := ensure_branch p branch base remote force s in
    (exists evs,
        trace (snd run) = trace s ++ evs
        /\ answers evs (world s)
        /\ world (snd run) = replay evs (world s)
        /\ (forall e, In e evs -> is_checkout p e ->
                      returncode (event_result e) <> 0 ->
                      fst run
                      = Raise (WorkflowError (diagnostic (event_result e)))
                      /\ exists pre, evs = pre ++ [e])
        /\ (forall x, fst run = Raise x ->
                      exists pre e,
                        evs = pre ++ [e]
                        /\ is_checkout p e
                        /\ returncode (event_result e) <> 0
                        /\ x = WorkflowError (diagnostic (event_result e))))
    /\ (forall (root : Path) (targets pre post : list Submodule)
               (m : Submodule) (s0 s1 : State) (x : exn),
           path m = p ->
           changed_submodules targets false s0 = (Ok (pre ++ m :: post), s1) ->
           for_each pre (branch_step branch base remote force) s1 = (Ok tt, s) ->
           fst run = Raise x ->
           handle_branch root targets branch base remote force s0
           = (Raise x, snd run)).
Proof.
  intros p branch base remote force s run. split.
  - destruct (emits_ensure_branch_aborts p branch base remote force s)
      as (evs & Ht & HT & Ha & Hw & _).
    fold run in Ht, HT, Hw. exists evs.
    split; [exact Ht|]. split; [exact Ha|]. split; [exact Hw|]. split.
    + intros e Hin Hc Hrc. destruct (fst run) as [b|x]; cbn in HT.
      * rewrite Forall_forall in HT. now elim Hrc; apply HT.
      * destruct HT as (pre & e0 & -> & Hpre & Hc0 & Hrc0 & ->).
        apply in_app_or in Hin. destruct Hin as [Hin|[<-|[]]].
        -- rewrite Forall_forall in Hpre. now elim Hrc; apply Hpre.
        -- split; [reflexivity | now exists pre].
    + intros x Hx. rewrite Hx in HT. cbn in HT.
      destruct HT as (pre & e & -> & _ & Hc & Hrc & ->). now exists pre, e.
  - intros root targets pre post m s0 s1 x Hp Hscan Hpre Hx.
    unfold handle_branch. rewrite (bind_ok _ _ _ _ _ Hscan).
    replace (negb (nonempty (pre ++ m :: post))) with false
      by (now destruct pre).
    rewrite (for_each_app _ _ _ _ _ Hpre). cbn [for_each].
    apply bind_raise, branch_step_raise. rewrite Hp. fold run.
    destruct run as [r s']. cbn in *. now subst r.
Qed.

End CheckoutFailures.

Section Idempotence.
Context {P : Platform}.

(** A call of [ensure_branch] that returns normally returns the requested
    name, and either found the branch current after the first query or ended
    with a checkout of the branch that succeeded. *)
Lemma ensure_branch_ok_last p branch base remote force s b s' :
  ensure_branch p branch base remote force s = (Ok b, s') ->
  b = branch
  /\ ((current_of (git_result p ["rev-parse"; "--abbrev-ref"; "HEAD"] s)
       = Some branch
       /\ s' = st_git p ["rev-parse"; "--abbrev-ref"; "HEAD"] s)
      \/ exists s0 args,
           In args (checkouts_of branch)
           /\ returncode (git_result p args s0) = 0
           /\ s' = st_git p args s0).
Proof.
  unfold ensure_branch, checkouts_of. rewrite bind_get_current_branch.
  destruct (option_eqb _ branch) eqn:E1.
  { unfold ret. intros H. inversion H; subst. split; [reflexivity|].
    left. split; [now apply option_eqb_true | reflexivity]. }
  rewrite bind_run_git_unchecked. split_rc E2;
    [|rewrite bind_git_status_lines; cbv zeta;
      destruct base as [base'|]; [destruct (PyStr.truthy base' && _)|]];
    run; repeat (let E := fresh "E" in split_rc E);
    unfold ret; intros H; try discriminate H;
    inversion H; subst; clear H; (split; [reflexivity|]); right;
    eexists _, _; (split; [|split; [|reflexivity]]);
    try (apply Z.eqb_eq; assumption);
    destruct force; cbn; auto.
Qed.


End Idempotence.

(** ** Publisher: the choice of the review tool *)

Section ReviewTool.
Context {P : Platform}.

(** [detect_mr_tool] as a choice among the installed tools. *)
Lemma detect_mr_tool_choice remote_url s :
  exists choice,
    detect_mr_tool remote_url s = (Ok choice, s)
    /\ ((exists t, review_tool t /\ hosted_by t remote_url
                   /\ which t (world s) = true) ->
        exists t, choice = Some t /\ hosted_by t remote_url
                  /\ which t (world s) = true)
    /\ (which "glab" (world s) = true \/ which "gh" (world s) = true ->
        exists t, choice = Some t /\ review_tool t /\ which t (world s) = true)
    /\ (which "glab" (world s) = false -> which "gh" (world s) = false ->
        choice = None).
Proof.
  unfold detect_mr_tool, ask, hosted_by, review_tool.
  set (u := PyStr.lower remote_url).
  destruct (PyStr.contains "gitlab" u) eqn:Hlab;
    destruct (PyStr.contains "github" u) eqn:Hhub;
    destruct (PyStr.endswith ".git" u);
    destruct (which "glab" (world s)) eqn:Wlab;
    destruct (which "gh" (world s)) eqn:Whub; cbn;
    (eexists; split; [reflexivity|]); (split; [|split]);
    try (intros; congruence);
    try (intros _; eexists; split; [reflexivity|]; now auto);
    try (intros [Hx|Hx]; discriminate Hx);
    try (intros (t & _ & [[-> Hh]|[-> Hh]] & Hw); congruence);
    try (intros (t & _ & Hh & Hw); eexists; split; [reflexivity|]; now auto).
Qed.

(** C7. Whatever the remote URL and whichever tools are installed:
    when a tool whose hosting service is named in the URL is installed,
    [detect_mr_tool] chooses such a tool; otherwise, when one of the two
    tools is installed, it chooses an installed one; and when neither is
    installed it chooses none, in which case [create_merge_request] prints
    the advice to create the merge request by hand and the suggested
    title, runs no review tool and returns normally. When a tool is chosen,
    the command run is the one of that tool. *)
Theorem create_merge_request_tool_choice :
  forall (remote_url : string) (p : Path) (branch target : string)
         (title : option string) (draft : bool) (s : State),
    let s1 := st_git p origin_args s in
    let origin := git_result p origin_args s in
    (exists choice,
        detect_mr_tool remote_url s = (Ok choice, s)
        /\ ((exists t, review_tool t /\ hosted_by t remote_url
                       /\ which t (world s) = true) ->
            exists t, choice = Some t /\ hosted_by t remote_url
                      /\ which t (world s) = true)
        /\ (which "glab" (world s) = true \/ which "gh" (world s) = true ->
            exists t, choice = Some t /\ review_tool t
                      /\ which t (world s) = true)
        /\ (which "glab" (world s) = false -> which "gh" (world s) = false ->
            choice = None))
    /\ (returncode origin = 0 ->
        which "glab" (world s1) = false -> which "gh" (world s1) = false ->
        exists s',
          create_merge_request p branch target title draft s = (Ok tt, s')
          /\ trace s' = trace s ++ [Exec (git_cmd p origin_args) origin]
          /\ sys_stderr s'
             = sys_stderr s1
               ++ ["No supported CLI (glab or gh) detected. Please create the merge request manually."%string]
          /\ sys_stdout s'
             = sys_stdout s ++ [("Suggested title: " ++ title_or title branch)%string])
    /\ (returncode origin = 0 ->
        forall tool,
          fst (detect_mr_tool (PyStr.strip (stdout origin)) s1) = Ok (Some tool) ->
          exists r,
            trace (snd (create_merge_request p branch target title draft s))
            = trace s ++ [Exec (git_cmd p origin_args) origin;
                          Exec (mr_command tool branch target title draft) r]
            /\ fst (create_merge_request p branch target title draft s)
               = if returncode r =? 0 then Ok tt
                 else Raise (WorkflowError
                               ("Merge request command failed with exit code "
                                ++ PyStr.of_Z (returncode r) ++ "."))).
Proof.
  intros remote_url p branch target title draft s s1 origin.
  split; [apply detect_mr_tool_choice|]. split.
  - intros Hrc Hlab Hhub. apply Z.eqb_eq in Hrc.
    unfold create_merge_request. rewrite bind_run_git_checked.
    fold origin_args origin s1. rewrite Hrc.
    destruct (detect_mr_tool_choice (PyStr.strip (stdout origin)) s1)
      as (choice & Hd & _ & _ & Hnone).
    rewrite (bind_ok _ _ _ _ _ Hd), (Hnone Hlab Hhub).
    eexists. split; [reflexivity|]. cbn.
    unfold s1. rewrite trace_st_git, stdout_st_git. auto.
  - intros Hrc tool Htool. apply Z.eqb_eq in Hrc.
    unfold create_merge_request. rewrite bind_run_git_checked.
    fold origin_args origin s1. rewrite Hrc.
    assert (Hd : detect_mr_tool (PyStr.strip (stdout origin)) s1
                 = (Ok (Some tool), s1)).
    { destruct (detect_mr_tool_choice (PyStr.strip (stdout origin)) s1)
        as (choice & Hd & _). rewrite Hd in Htool |- *. cbn in Htool.
      congruence. }
    rewrite (bind_ok _ _ _ _ _ Hd). rewrite bind_debug.
    set (cmd := mr_command tool branch target title draft).
    set (s2 := st_debug _ s1).
    exists (exec_result cmd s2). unfold bind, subprocess.
    assert (T2 : trace (st_exec cmd s2)
                 = trace s ++ [Exec (git_cmd p origin_args) origin;
                               Exec cmd (exec_result cmd s2)]).
    { rewrite trace_st_exec. unfold s2. rewrite trace_st_debug.
      unfold s1. rewrite trace_st_git, <- app_assoc. reflexivity. }
    destruct (returncode (exec_result cmd s2) =? 0); cbn; auto.
Qed.

End ReviewTool.

(** ** Command dispatcher: the steps before the handlers *)

Section Dispatcher.
Context {P : Platform}.

Lemma ensure_repo_reads p s : snd (ensure_repo p s) = s.
Proof.
  unfold ensure_repo, bind, ask. cbn.
  now destruct (path_exists _ _).
Qed.

Lemma ensure_repo_set_debug p b s :
  fst (ensure_repo p (st_set_debug b s)) = fst (ensure_repo p s).
Proof.
  unfold ensure_repo, bind, ask. cbn.
  now destruct (path_exists _ _).
Qed.

Lemma load_submodules_reads root s : snd (load_submodules root s) = s.
Proof. reflexivity. Qed.

Lemma resolve_targets_reads root submodules names s :
  snd (resolve_targets root submodules names s) = s.
Proof.
  unfold resolve_targets. destruct names as [[|n names]|]; try reflexivity.
  destruct (nonempty _); reflexivity.
Qed.

Lemma resolve_targets_any_state root submodules names s s' :
  fst (resolve_targets root submodules names s)
  = fst (resolve_targets root submodules names s').
Proof.
  unfold resolve_targets. destruct names as [[|n names]|]; try reflexivity.
  destruct (nonempty _); reflexivity.
Qed.

Lemma run_of_parts {A} (m : M A) s (r : outcome A) :
  fst (m s) = r -> snd (m s) = s -> m s = (r, s).
Proof. destruct (m s). cbn. congruence. Qed.

(** The first two steps of [run], from the state [main] starts it in. *)
Lemma run_first_steps args s root submodules :
  fst (ensure_repo (repo_root args) s) = Ok root ->
  fst (load_submodules root s) = Ok submodules ->
  run args (st_set_debug (verbose args) s)
  = (if negb (nonempty submodules) then
       print "No submodules registered in .gitmodules." ;; ret 0
     else
       targets <- resolve_targets root submodules (modules args) ;;
       (match command args with
        | CmdStatus => handle_status root targets (include_clean args)
        | CmdBranch branch_name base remote force =>
            handle_branch root targets branch_name base remote force
        | CmdPush remote set_upstream =>
            handle_push root targets remote set_upstream
        | CmdMr target title draft =>
            handle_mr root targets target title draft
        | CmdUpdateParent => handle_update_parent root targets
        end) ;;
       ret 0) (st_set_debug (verbose args) s).
Proof.
  intros Hrepo Hload. unfold run.
  set (s0 := st_set_debug (verbose args) s).
  assert (E1 : ensure_repo (repo_root args) s0 = (Ok root, s0)).
  { apply run_of_parts; [|apply ensure_repo_reads].
    unfold s0. now rewrite ensure_repo_set_debug. }
  rewrite (bind_ok _ _ _ _ _ E1).
  assert (E2 : load_submodules root s0 = (Ok submodules, s0)).
  { apply run_of_parts; [|apply load_submodules_reads]. exact Hload. }
  now rewrite (bind_ok _ _ _ _ _ E2).
Qed.

Lemma main_eq args s :
  main args s
  = try_except (run args) (fun exc => eprint ("Error: " ++ exc) ;; ret 1)
      (st_set_debug (verbose args) s).
Proof. reflexivity. Qed.

(** C9. When the manifest is there and parses to no submodule entry,
    [main] prints that no submodules are registered and returns 0,
    whatever the subcommand and the target names: no process is run, the
    world is untouched and nothing goes to the error stream. *)
Theorem main_no_submodules :
  forall (args : Args) (s : State) (root : Path),
    fst (ensure_repo (repo_root args) s) = Ok root ->
    fst (load_submodules root s) = Ok [] ->
    exists s',
      main args s = (Ok 0, s')
      /\ sys_stdout s'
         = sys_stdout s ++ ["No submodules registered in .gitmodules."%string]
      /\ sys_stderr s' = sys_stderr s
      /\ trace s' = trace s
      /\ world s' = world s.
Proof.
  intros args s root Hrepo Hload.
  exists (st_print "No submodules registered in .gitmodules."
            (st_set_debug (verbose args) s)).
  split; [|cbn; auto].
  rewrite main_eq. unfold try_except.
  now rewrite (run_first_steps args s root [] Hrepo Hload).
Qed.

Lemma dict_get_set d k v n :
  dict_has (dict_set d k v) n = String.eqb k n || dict_has d n.
Proof.
  unfold dict_has. induction d as [|[k' v'] d IH]; cbn.
  - now destruct (String.eqb k n).
  - destruct (String.eqb k' k) eqn:E; cbn.
    + apply String.eqb_eq in E. subst k'.
      now destruct (String.eqb k n).
    + destruct (String.eqb k' n) eqn:E'; cbn.
      * now rewrite orb_true_r.
      * exact IH.
Qed.

Lemma dict_has_fold submodules : forall d n,
  dict_has (fold_left (fun d m => dict_set d (name m) m) submodules d) n
  = dict_has d n || existsb (String.eqb n) (map name submodules).
Proof.
  induction submodules as [|m rest IH]; intros d n; cbn.
  - now rewrite orb_false_r.
  - rewrite IH, dict_get_set, (String.eqb_sym (name m) n).
    destruct (dict_has d n), (String.eqb n (name m)),
      (existsb (String.eqb n) (map name rest)); reflexivity.
Qed.

(** The names [resolve_targets] reports are the names that are not in the
    registry. *)
Lemma missing_unknown submodules names :
  filter (fun n => negb (dict_has (name_map_of submodules) n)) names
  = unknown_names submodules names.
Proof.
  unfold unknown_names, name_map_of. apply filter_ext. intros n.
  now rewrite dict_has_fold.
Qed.

Lemma unknown_names_nonempty submodules names n :
  In n names -> ~ In n (map name submodules) ->
  nonempty (unknown_names submodules names) = true.
Proof.
  intros Hin Hout.
  assert (H : In n (unknown_names submodules names)).
  { unfold unknown_names. apply filter_In. split; [assumption|].
    destruct (existsb _ _) eqn:E; [|reflexivity].
    apply existsb_exists in E. destruct E as (x & Hx & Heq).
    apply String.eqb_eq in Heq. now subst x. }
  now destruct (unknown_names submodules names).
Qed.

(** C4, as the code has it. When the registry holds at least one
    submodule and the list of target names holds a name that is not in the
    registry, [main] returns 1 after printing to the error stream a
    workflow error that lists the unknown names; no process has been run for
    any target and the world is as it was. *)
Theorem main_unknown_targets :
  forall (args : Args) (s : State) (root : Path) (submodules : list Submodule)
         (names : list string) (n : string),
    fst (ensure_repo (repo_root args) s) = Ok root ->
    fst (load_submodules root s) = Ok submodules ->
    submodules <> [] ->
    modules args = Some names ->
    In n names -> ~ In n (map name submodules) ->
    exists s',
      main args s = (Ok 1, s')
      /\ sys_stderr s'
         = sys_stderr s
           ++ [("Error: Unknown submodule(s): "
                ++ PyStr.join ", " (unknown_names submodules names))%string]
      /\ sys_stdout s' = sys_stdout s
      /\ trace s' = trace s
      /\ world s' = world s.
Proof.
  intros args s root submodules names n Hrepo Hload Hne Hnames Hin Hout.
  exists (st_eprint ("Error: Unknown submodule(s): "
                     ++ PyStr.join ", " (unknown_names submodules names))
            (st_set_debug (verbose args) s)).
  split; [|cbn; auto].
  rewrite main_eq. unfold try_except.
  rewrite (run_first_steps args s root submodules Hrepo Hload).
  assert (Hsub : nonempty submodules = true)
    by (destruct submodules; [now elim Hne | reflexivity]).
  rewrite Hsub, Hnames. cbn [negb]. unfold resolve_targets.
  assert (Hmiss : nonempty (unknown_names submodules names) = true)
    by exact (unknown_names_nonempty submodules names n Hin Hout).
  destruct names as [|n0 names']; [now elim Hin|].
  rewrite missing_unknown, Hmiss.
  reflexivity.
Qed.

(** The result of [run] is 0 whenever it returns. *)
Lemma run_returns_zero args s code s' :
  run args s = (Ok code, s') -> code = 0.
Proof.
  unfold run. intros H.
  apply bind_inv_ok in H. destruct H as (root & s1 & _ & H).
  apply bind_inv_ok in H. destruct H as (submodules & s2 & _ & H).
  destruct (negb (nonempty submodules)).
  - apply bind_inv_ok in H. destruct H as (? & s3 & _ & H).
    unfold ret in H. congruence.
  - apply bind_inv_ok in H. destruct H as (targets & s3 & _ & H).
    apply bind_inv_ok in H. destruct H as (? & s4 & _ & H).
    unfold ret in H. congruence.
Qed.

(** C8, as the code has it. [main] sets the [DEBUG] flag and runs the
    command. When the run returns, [main] returns 0. When the run raises a
    workflow error, [main] catches it, prints its message once to the error
    stream after the prefix [Error: ], and returns 1. Any other exception
    is not caught: it leaves [main], and nothing is printed for it. *)
Theorem main_exit_code :
  forall (args : Args) (s : State),
    let started := st_set_debug (verbose args) s in
    (forall code s', run args started = (Ok code, s') ->
                     main args s = (Ok 0, s'))
    /\ (forall msg s', run args started = (Raise (WorkflowError msg), s') ->
                       main args s
                       = (Ok 1, st_eprint ("Error: " ++ msg)%string s'))
    /\ (forall msg s', run args started = (Raise (ValueError msg), s') ->
                       main args s = (Raise (ValueError msg), s'))
    /\ (forall code s', main args s = (Ok code, s') -> code = 0 \/ code = 1).
Proof.
  intros args s started. rewrite main_eq. fold started. unfold try_except.
  split; [|split; [|split]].
  - intros code s' H. rewrite H. now rewrite (run_returns_zero _ _ _ _ H).
  - intros msg s' H. now rewrite H.
  - intros msg s' H. now rewrite H.
  - intros code s'. destruct (run args started) as [[c|[msg|msg]] s1] eqn:H.
    + apply run_returns_zero in H. intros E. inversion E. subst. now left.
    + unfold bind, eprint, ret. intros E. inversion E. now right.
    + discriminate.
Qed.

End Dispatcher.

(** ** Handlers: only dirty submodules are operated on *)

Section Handlers.
Context {P : Platform}.

Lemma emits_ext {A} T (m m' : M A) :
  (forall s, m s = m' s) -> emits T m' -> emits T m.
Proof. intros H Hm s. rewrite H. apply Hm. Qed.

Lemma ops_for_app root dirty evs1 evs2 :
  ops_for root dirty evs1 -> ops_for root dirty evs2 ->
  ops_for root dirty (evs1 ++ evs2).
Proof.
  intros H1 H2. induction H1; cbn; [assumption| |].
  - eapply ops_git; eauto.
  - eapply ops_review; eauto.
Qed.

Lemma closed_ops_for root dirty : closed (fun _ => ops_for root dirty).
Proof. split; [constructor|]. intros o evs1 evs2. apply ops_for_app. Qed.

Lemma ops_for_in_dir root dirty m evs :
  In m dirty -> Forall (in_dir (path m)) evs -> ops_for root dirty evs.
Proof.
  intros Hm H. induction H; [constructor|]. eapply ops_git; eauto.
Qed.

Lemma emits_in_dir_ops {A} root dirty m (c : M A) :
  In m dirty -> emits (all (in_dir (path m))) c ->
  emits (fun _ => ops_for root dirty) c.
Proof.
  intros Hm. apply emits_weaken. intros o evs. now apply ops_for_in_dir.
Qed.

Lemma is_review_mr_command tool branch target title draft r :
  is_review (Exec (mr_command tool branch target title draft) r).
Proof.
  unfold is_review, mr_command. cbn.
  destruct (String.eqb tool "glab"); cbn; eauto.
Qed.

Lemma emits_create_merge_request root dirty m branch target title draft :
  In m dirty ->
  emits (fun _ => ops_for root dirty)
        (create_merge_request (path m) branch target title draft).
Proof.
  intros Hm s. unfold create_merge_request. rewrite bind_run_git_checked.
  fold origin_args.
  set (e1 := Exec (git_cmd (path m) origin_args)
                  (git_result (path m) origin_args s)).
  set (s1 := st_git (path m) origin_args s).
  assert (T1 : trace s1 = trace s ++ [e1]) by apply trace_st_git.
  assert (W1 : world s1 = replay [e1] (world s)) by apply world_st_git.
  assert (D1 : DEBUG s1 = DEBUG s) by apply DEBUG_st_git.
  assert (O1 : ops_for root dirty [e1]).
  { eapply ops_git; [exact Hm | left; apply in_dir_git | constructor]. }
  assert (A1 : answers [e1] (world s)) by (cbn; auto).
  split_rc E; [|exists [e1]; cbn [fst snd]; auto].
  destruct (detect_mr_tool_choice
              (PyStr.strip (stdout (git_result (path m) origin_args s))) s1)
    as (choice & Hd & _).
  rewrite (bind_ok _ _ _ _ _ Hd).
  destruct choice as [tool|].
  - rewrite bind_debug.
    set (cmd := mr_command tool branch target title draft).
    set (s2 := st_debug _ s1). unfold bind, subprocess.
    exists [e1; Exec cmd (exec_result cmd s2)].
    assert (Hall :
      trace (st_exec cmd s2) = trace s ++ [e1; Exec cmd (exec_result cmd s2)]
      /\ ops_for root dirty [e1; Exec cmd (exec_result cmd s2)]
      /\ answers [e1; Exec cmd (exec_result cmd s2)] (world s)
      /\ world (st_exec cmd s2)
         = replay [e1; Exec cmd (exec_result cmd s2)] (world s)
      /\ DEBUG (st_exec cmd s2) = DEBUG s).
    { split; [|split; [|split; [|split]]].
      - rewrite trace_st_exec. unfold s2. rewrite trace_st_debug, T1,
          <- app_assoc. reflexivity.
      - eapply ops_review; [exact Hm | reflexivity | | constructor].
        apply is_review_mr_command.
      - cbn. split; [reflexivity|]. split; [|exact I].
        unfold exec_result, s2. rewrite world_st_debug, W1. reflexivity.
      - rewrite world_st_exec. unfold s2. rewrite world_st_debug, W1.
        reflexivity.
      - rewrite DEBUG_st_exec. unfold s2. now rewrite DEBUG_st_debug. }
    destruct (negb (returncode (exec_result cmd s2) =? 0)); cbn [fst snd];
      tauto.
  - exists [e1]. cbn [bind eprint print ret fst snd]. cbn. auto.
Qed.

Lemma emits_branch_step root dirty branch_name base remote force m :
  In m dirty ->
  emits (fun _ => ops_for root dirty)
        (branch_step branch_name base remote force m).
Proof.
  intros Hm. pose proof (closed_ops_for root dirty) as C. unfold branch_step.
  apply emits_bind; [exact C | | intros b; now apply emits_print].
  eapply emits_in_dir_ops; [exact Hm | apply emits_ensure_branch].
Qed.

Lemma emits_push_step root dirty remote set_upstream m :
  In m dirty ->
  emits (fun _ => ops_for root dirty) (push_step remote set_upstream m).
Proof.
  intros Hm. pose proof (closed_ops_for root dirty) as C. unfold push_step.
  apply emits_bind; [exact C | |].
  - eapply emits_in_dir_ops; [exact Hm | apply emits_get_current_branch].
  - intros [b|]; [destruct (PyStr.truthy b)|];
      try (apply emits_raise; constructor).
    apply emits_bind; [exact C | | intros _; now apply emits_print].
    eapply emits_in_dir_ops; [exact Hm | apply emits_push_branch].
Qed.

Lemma emits_mr_step root dirty target title draft m :
  In m dirty ->
  emits (fun _ => ops_for root dirty) (mr_step target title draft m).
Proof.
  intros Hm. pose proof (closed_ops_for root dirty) as C. unfold mr_step.
  apply emits_bind; [exact C | |].
  - eapply emits_in_dir_ops; [exact Hm | apply emits_get_current_branch].
  - intros [b|]; [destruct (PyStr.truthy b)|];
      try (apply emits_raise; constructor).
    apply emits_bind; [exact C | | intros _; now apply emits_print].
    now apply emits_create_merge_request.
Qed.

Lemma emits_update_parent root dirty modules :
  (forall m, In m modules -> In m dirty) ->
  emits (fun _ => ops_for root dirty) (update_parent root modules).
Proof.
  intros Hsub. pose proof (closed_ops_for root dirty) as C.
  unfold update_parent. apply emits_for_each; [exact C|].
  intros m Hm. unfold relative.
  destruct (relative_to (path m) root) as [rel|] eqn:E.
  - apply (emits_ext _ _ (run_git root ["add"; rel] true ;; ret tt));
      [reflexivity|].
    apply emits_bind; [exact C | | intros _; now apply emits_ret].
    apply emits_run_git; [intros r _ | intros r _ _];
      (eapply ops_git; [apply Hsub, Hm | right | constructor]);
      now exists rel.
  - apply (emits_ext _ _ (raise (ValueError
             (path m ++ " is not in the subpath of " ++ root)%string)));
      [reflexivity|].
    apply emits_raise. constructor.
Qed.

Lemma emits_staged_report root dirty modules :
  emits (fun _ => ops_for root dirty)
    (for_each modules (fun module =>
       rel <- relative (path module) root ;;
       print ("Staged updated hash for " ++ name module ++ " (" ++ rel ++ ")."))).
Proof.
  pose proof (closed_ops_for root dirty) as C.
  apply emits_for_each; [exact C|]. intros m _.
  apply emits_bind; [exact C | | intros rel; now apply emits_print].
  unfold relative. destruct (relative_to (path m) root);
    [now apply emits_ret | apply emits_raise; constructor].
Qed.

(** What a handler does once the scan has returned [dirty]. *)
Lemma emits_after_scan root dirty (message : string) (loop : M unit) :
  emits (fun _ => ops_for root dirty) loop ->
  emits (fun _ => ops_for root dirty)
        (if negb (nonempty dirty) then print message else loop).
Proof.
  intros H. destruct (negb (nonempty dirty)); [|exact H].
  apply emits_print, closed_ops_for.
Qed.

Lemma after_scan {A} root (k : list Submodule -> M A) targets s dirty s1 :
  changed_submodules targets false s = (Ok dirty, s1) ->
  emits (fun _ => ops_for root dirty) (k dirty) ->
  exists ops,
    trace (snd (bind (changed_submodules targets false) k s)) = trace s1 ++ ops
    /\ ops_for root dirty ops.
Proof.
  intros Hscan Hk. rewrite (bind_ok _ _ _ _ _ Hscan).
  destruct (Hk s1) as (ops & Ht & HT & _). now exists ops.
Qed.

(** C5. Each of the handlers of [branch], [push], [mr] and [update-parent]
    scans the targets it is given (the explicitly named ones when names
    were given), and every process it runs after the scan belongs to a
    submodule the scan classified dirty: a git command in the directory of
    such a submodule, the staging of such a submodule in the parent, or a
    review tool run after the URL query in such a submodule. A target that
    is clean is passed over in silence: the scan prints nothing to the
    standard output, and no process is run for the target afterwards. *)
Theorem handlers_touch_only_dirty :
  forall (root : Path) (targets : list Submodule) (s : State)
         (branch_name : string) (base : option string) (remote : string)
         (force : bool) (push_remote : string) (set_upstream : bool)
         (target : string) (title : option string) (draft : bool),
  exists results s1,
    changed_submodules targets false s
    = (Ok (dirty_of (combine targets results)), s1)
    /\ length results = length targets
    /\ trace s1 = trace s ++ map status_event (combine targets results)
    /\ sys_stdout s1 = sys_stdout s
    /\ (exists ops,
           trace (snd (handle_branch root targets branch_name base remote
                         force s)) = trace s1 ++ ops
           /\ ops_for root (dirty_of (combine targets results)) ops)
    /\ (exists ops,
           trace (snd (handle_push root targets push_remote set_upstream s))
           = trace s1 ++ ops
           /\ ops_for root (dirty_of (combine targets results)) ops)
    /\ (exists ops,
           trace (snd (handle_mr root targets target title draft s))
           = trace s1 ++ ops
           /\ ops_for root (dirty_of (combine targets results)) ops)
    /\ (exists ops,
           trace (snd (handle_update_parent root targets s)) = trace s1 ++ ops
           /\ ops_for root (dirty_of (combine targets results)) ops).
Proof.
  intros root targets s branch_name base remote force push_remote set_upstream
    target title draft.
  destruct (changed_submodules_loop_spec targets false [] s)
    as (results & s1 & Hscan & Hlen & Htr & _ & _ & _ & Hout).
  cbn [app] in Hscan. fold (changed_submodules targets false) in Hscan.
  set (dirty := dirty_of (combine targets results)) in *.
  pose proof (closed_ops_for root dirty) as C.
  exists results, s1.
  split; [exact Hscan|]. split; [exact Hlen|]. split; [exact Htr|].
  split; [exact Hout|].
  split; [|split; [|split]].
  - apply (after_scan root _ _ _ _ _ Hscan). apply emits_after_scan.
    apply emits_for_each; [exact C|]. intros m Hm.
    now apply emits_branch_step.
  - apply (after_scan root _ _ _ _ _ Hscan). apply emits_after_scan.
    apply emits_for_each; [exact C|]. intros m Hm.
    now apply emits_push_step.
  - apply (after_scan root _ _ _ _ _ Hscan). apply emits_after_scan.
    apply emits_for_each; [exact C|]. intros m Hm.
    now apply emits_mr_step.
  - apply (after_scan root _ _ _ _ _ Hscan). apply emits_after_scan.
    apply emits_bind; [exact C | | intros _; apply emits_staged_report].
    now apply emits_update_parent.
Qed.

End Handlers.

(** ** Push on a detached HEAD *)

Section DetachedHead.
Context {P : Platform}.

Lemma push_step_detached remote set_upstream m s2 s3 :
  get_current_branch (path m) s2 = (Ok None, s3) ->
  push_step remote set_upstream m s2
  = (Raise (WorkflowError (detached_message m)), s3).
Proof. intros H. unfold push_step. now rewrite (bind_ok _ _ _ _ _ H). Qed.

Lemma handle_push_detached root targets remote set_upstream s pre m post
    s1 s2 s3 :
  changed_submodules targets false s = (Ok (pre ++ m :: post), s1) ->
  for_each pre (push_step remote set_upstream) s1 = (Ok tt, s2) ->
  get_current_branch (path m) s2 = (Ok None, s3) ->
  handle_push root targets remote set_upstream s
  = (Raise (WorkflowError (detached_message m)), s3).
Proof.
  intros Hscan Hpre Hcur. unfold handle_push.
  rewrite (bind_ok _ _ _ _ _ Hscan).
  replace (negb (nonempty (pre ++ m :: post))) with false
    by (now destruct pre).
  rewrite (for_each_app _ _ _ _ _ Hpre). cbn [for_each].
  now rewrite (bind_raise _ _ _ _ _ (push_step_detached _ _ _ _ _ Hcur)).
Qed.

(** C6. In a run of [push], let the scan return the dirty submodules
    [pre ++ m :: post]. If the submodules of [pre] are pushed and, when its
    turn comes, [m] has no current branch, then the run ends there: the
    only process run from that point on is the query for the current branch
    of [m] (no push of [m], nothing at all for [post]), and [main] prints
    the workflow error that names [m] and returns 1. *)
Theorem push_detached_head_aborts :
  forall (args : Args) (s : State) (root : Path)
         (submodules targets pre post : list Submodule) (m : Submodule)
         (remote : string) (set_upstream : bool) (s1 s2 s3 : State),
    fst (ensure_repo (repo_root args) s) = Ok root ->
    fst (load_submodules root s) = Ok submodules ->
    submodules <> [] ->
    fst (resolve_targets root submodules (modules args) s) = Ok targets ->
    command args = CmdPush remote set_upstream ->
    changed_submodules targets false (st_set_debug (verbose args) s)
    = (Ok (pre ++ m :: post), s1) ->
    for_each pre (push_step remote set_upstream) s1 = (Ok tt, s2) ->
    get_current_branch (path m) s2 = (Ok None, s3) ->
    main args s
    = (Ok 1, st_eprint ("Error: " ++ detached_message m)%string s3)
    /\ exists r,
         trace (snd (main args s))
         = trace s2 ++ [Exec (current_branch_cmd (path m)) r].
Proof.
  intros args s root submodules targets pre post m remote set_upstream
    s1 s2 s3 Hrepo Hload Hne Htargets Hcmd Hscan Hpre Hcur.
  assert (Hmain : main args s
                  = (Ok 1, st_eprint ("Error: " ++ detached_message m) s3)).
  { rewrite main_eq. unfold try_except.
    rewrite (run_first_steps args s root submodules Hrepo Hload).
    replace (negb (nonempty submodules)) with false
      by (destruct submodules; [now elim Hne | reflexivity]).
    set (s0 := st_set_debug (verbose args) s) in *.
    assert (E : resolve_targets root submodules (modules args) s0
                = (Ok targets, s0)).
    { apply run_of_parts; [|apply resolve_targets_reads].
      now rewrite (resolve_targets_any_state _ _ _ s0 s). }
    rewrite (bind_ok _ _ _ _ _ E), Hcmd.
    rewrite (bind_raise _ _ _ _ _
               (handle_push_detached root _ _ _ _ _ _ _ _ _ _ Hscan Hpre Hcur)).
    reflexivity. }
  split; [exact Hmain|].
  rewrite Hmain. cbn [snd st_eprint trace].
  rewrite get_current_branch_eq in Hcur. inversion Hcur. subst s3.
  eexists. apply trace_st_git.
Qed.

End DetachedHead.

(** ** Further properties of the dispatcher and of the status command *)

Section MoreDispatcher.
Context {P : Platform}.

(** X1. When the resolved repository root holds no [.gitmodules] file,
    [main] prints the configuration error that names the root and returns
    1, whatever the subcommand: no process is run, nothing goes to the
    standard output and the world is as it was. *)
Theorem main_missing_manifest :
  forall (args : Args) (s : State),
    let root := path_resolve (repo_root args) (world s) in
    path_exists (path_join root ".gitmodules") (world s) = false ->
    exists s',
      main args s = (Ok 1, s')
      /\ sys_stderr s'
         = sys_stderr s ++ [("Error: " ++ missing_manifest_message root)%string]
      /\ sys_stdout s' = sys_stdout s
      /\ trace s' = trace s
      /\ world s' = world s.
Proof.
  intros args s root Hmissing.
  exists (st_eprint ("Error: " ++ missing_manifest_message root)
            (st_set_debug (verbose args) s)).
  split; [|cbn; auto].
  rewrite main_eq. unfold try_except, run, ensure_repo, bind, ask.
  cbn [world st_set_debug fst snd]. fold root. rewrite Hmissing. reflexivity.
Qed.

(** X2. When the scan finds no dirty target, no handler does anything
    more: each returns normally in the state the scan left, after printing
    its own line that nothing was detected. *)
Theorem handlers_without_dirty_targets :
  forall (root : Path) (targets : list Submodule) (s s1 : State)
         (branch_name : string) (base : option string) (remote : string)
         (force : bool) (push_remote : string) (set_upstream : bool)
         (target : string) (title : option string) (draft : bool),
    changed_submodules targets false s = (Ok [], s1) ->
    handle_status root targets false s
    = (Ok tt, st_print "No dirty submodules detected." s1)
    /\ handle_branch root targets branch_name base remote force s
       = (Ok tt,
          st_print "No dirty submodules detected; nothing to branch." s1)
    /\ handle_push root targets push_remote set_upstream s
       = (Ok tt, st_print "No dirty submodules detected; nothing to push." s1)
    /\ handle_mr root targets target title draft s
       = (Ok tt,
          st_print "No dirty submodules detected; no merge requests created."
            s1)
    /\ handle_update_parent root targets s
       = (Ok tt,
          st_print
            "No dirty submodules detected; nothing to stage in the parent." s1).
Proof.
  intros root targets s s1 branch_name base remote force push_remote
    set_upstream target title draft Hscan.
  unfold handle_status, handle_branch, handle_push, handle_mr,
    handle_update_parent.
  cbv iota. rewrite !(bind_ok _ _ _ _ _ Hscan). cbn [nonempty negb].
  repeat split.
Qed.

Lemma closed_only_status targets : closed (only_status targets).
Proof.
  split; [split; [reflexivity | constructor]|].
  intros o evs1 evs2 [_ H1] [-> H2]. split; [reflexivity|].
  now apply Forall_app.
Qed.

Lemma emits_status_query targets m :
  In m targets -> emits (only_status targets) (git_status_lines (path m)).
Proof.
  intros Hm. pose proof (closed_only_status targets) as C.
  unfold git_status_lines.
  apply emits_bind; [exact C | | intros r; now apply emits_ret].
  apply emits_run_git; [|discriminate].
  intros r _. split; [reflexivity|]. constructor; [|constructor].
  now exists m.
Qed.

Lemma emits_scan T submodules include_clean :
  closed T ->
  (forall m, In m submodules -> emits T (git_status_lines (path m))) ->
  forall dirty, emits T (changed_submodules_loop submodules include_clean dirty).
Proof.
  intros C. induction submodules as [|m rest IH]; intros H dirty;
    cbn [changed_submodules_loop].
  - now apply emits_ret.
  - apply emits_bind; [exact C | apply H; now left | intros lines].
    apply emits_bind; [exact C | | intros _].
    + destruct (_ || _); [now apply emits_debug | now apply emits_ret].
    + apply IH. intros x Hx. apply H. now right.
Qed.

(** As [emits_bind], with what is known of the value passed on. *)
Lemma emits_bind_with {A B} T (Q : A -> Prop) (m : M A) (k : A -> M B) :
  closed T -> emits T m ->
  (forall s a s', m s = (Ok a, s') -> Q a) ->
  (forall a, Q a -> emits T (k a)) -> emits T (bind m k).
Proof.
  intros [_ Happ] Hm HQ Hk s. unfold bind.
  destruct (Hm s) as (evs1 & Ht1 & HT1 & Ha1 & Hw1 & Hd1).
  destruct (m s) as [[a|e] s1] eqn:E; cbn in *.
  - destruct (Hk a (HQ _ _ _ E) s1) as (evs2 & Ht2 & HT2 & Ha2 & Hw2 & Hd2).
    exists (evs1 ++ evs2). rewrite Ht2, Ht1, app_assoc.
    split; [reflexivity|]. split; [auto|]. split.
    + apply answers_app. split; [assumption|]. now rewrite <- Hw1.
    + rewrite replay_app, <- Hw1. split; congruence.
  - exists evs1. auto.
Qed.

Lemma dirty_of_incl submodules results m :
  In m (dirty_of (combine submodules results)) -> In m submodules.
Proof.
  unfold dirty_of. intros H. apply in_map_iff in H.
  destruct H as ([m' r] & <- & H). apply filter_In in H.
  destruct H as [H _]. now apply in_combine_l in H.
Qed.

Lemma changed_submodules_incl submodules include_clean s dirty s' :
  changed_submodules submodules include_clean s = (Ok dirty, s') ->
  forall m, In m dirty -> In m submodules.
Proof.
  intros H m Hm.
  destruct (changed_submodules_loop_spec submodules include_clean [] s)
    as (results & s1 & Hrun & _).
  unfold changed_submodules in H. rewrite Hrun in H. inversion H; subst.
  now apply dirty_of_incl in Hm.
Qed.

Lemma emits_handle_status root targets include_clean :
  emits (only_status targets) (handle_status root targets include_clean).
Proof.
  pose proof (closed_only_status targets) as C. unfold handle_status.
  apply (emits_bind_with _ (fun modules => forall m, In m modules -> In m targets));
    [exact C | | |].
  - destruct include_clean; [now apply emits_ret|].
    apply emits_scan; [exact C|]. intros m Hm. now apply emits_status_query.
  - intros s modules s'. destruct include_clean.
    + unfold ret. intros H. inversion H. auto.
    + apply changed_submodules_incl.
  - intros modules Hsub. destruct (negb (nonempty modules));
      [now apply emits_print|].
    apply emits_for_each; [exact C|]. intros m Hm.
    apply emits_bind; [exact C | apply emits_status_query, Hsub, Hm |].
    intros lines. apply emits_bind; [exact C | now apply emits_print |].
    intros _. destruct (nonempty lines); [|now apply emits_print].
    apply emits_for_each; [exact C|]. intros line _. now apply emits_print.
Qed.

(** X3. The [status] subcommand cannot fail once the manifest is read and
    the targets are resolved: [main] returns 0, and every process it ran is
    a [git status --porcelain] in the directory of a target. Nothing else
    is run, whatever git answers. *)
Theorem main_status_reads_only :
  forall (args : Args) (s : State) (root : Path)
         (submodules targets : list Submodule),
    command args = CmdStatus ->
    fst (ensure_repo (repo_root args) s) = Ok root ->
    fst (load_submodules root s) = Ok submodules ->
    fst (resolve_targets root submodules (modules args) s) = Ok targets ->
    fst (main args s) = Ok 0
    /\ exists evs,
         trace (snd (main args s)) = trace s ++ evs
         /\ Forall (is_status_of targets) evs.
Proof.
  intros args s root submodules targets Hcmd Hrepo Hload Htargets.
  rewrite main_eq. unfold try_except.
  rewrite (run_first_steps args s root submodules Hrepo Hload).
  set (s0 := st_set_debug (verbose args) s).
  destruct (negb (nonempty submodules)).
  - cbn. split; [reflexivity|]. exists []. now rewrite app_nil_r.
  - assert (E : resolve_targets root submodules (modules args) s0
                = (Ok targets, s0)).
    { apply run_of_parts; [|apply resolve_targets_reads].
      now rewrite (resolve_targets_any_state _ _ _ s0 s). }
    rewrite (bind_ok _ _ _ _ _ E), Hcmd.
    destruct (emits_handle_status root targets (include_clean args) s0)
      as (evs & Ht & [Hnone Hall] & _).
    unfold bind.
    destruct (handle_status root targets (include_clean args) s0)
      as [[[]|e] s1]; [|discriminate Hnone].
    cbn in *. split; [reflexivity|]. now exists evs.
Qed.

Lemma git_result_same_world d args s s' :
  world s = world s' -> git_result d args s = git_result d args s'.
Proof. unfold git_result, exec_result. now intros ->. Qed.

Lemma same_but_stderr_st_debug msg s s' :
  same_but_stderr s s' -> same_but_stderr (st_debug msg s) s'.
Proof.
  intros (Hw & Ht & Ho & Hd). unfold same_but_stderr.
  now autorewrite with state.
Qed.

Lemma same_but_stderr_sym s s' : same_but_stderr s s' -> same_but_stderr s' s.
Proof. intros (Hw & Ht & Ho & Hd). unfold same_but_stderr. auto. Qed.

Lemma same_but_stderr_st_git d args s s' :
  same_but_stderr s s' ->
  same_but_stderr (st_git d args s) (st_git d args s').
Proof.
  intros (Hw & Ht & Ho & Hd). unfold same_but_stderr.
  rewrite !world_st_git, !trace_st_git, !stdout_st_git, !DEBUG_st_git.
  rewrite (git_result_same_world d args s s' Hw), Hw, Ht, Ho, Hd. auto.
Qed.

Lemma changed_submodules_loop_flag submodules ic1 ic2 :
  forall dirty s s',
    same_but_stderr s s' ->
    fst (changed_submodules_loop submodules ic1 dirty s)
    = fst (changed_submodules_loop submodules ic2 dirty s')
    /\ same_but_stderr
         (snd (changed_submodules_loop submodules ic1 dirty s))
         (snd (changed_submodules_loop submodules ic2 dirty s')).
Proof.
  induction submodules as [|m rest IH]; intros dirty s s' Hs;
    cbn [changed_submodules_loop].
  - cbn. auto.
  - rewrite !bind_git_status_lines.
    pose proof Hs as (Hw & _).
    rewrite <- (git_result_same_world (path m) ["status"; "--porcelain"]
                  s s' Hw).
    set (lines := status_lines _).
    pose proof (same_but_stderr_st_git (path m) ["status"; "--porcelain"]
                  s s' Hs) as H1.
    destruct (nonempty lines || ic1), (nonempty lines || ic2);
      repeat rewrite ?bind_debug, ?bind_ret; apply IH;
      auto using same_but_stderr_st_debug, same_but_stderr_sym.
Qed.

(** X4. The [include_clean] flag of [changed_submodules] changes nothing
    but what is logged: with and without it the same submodules are
    returned, the same processes are run with the same answers, and the
    world and the standard output end up the same. *)
Theorem changed_submodules_flag_only_logs :
  forall (submodules : list Submodule) (include_clean : bool) (s : State),
    fst (changed_submodules submodules include_clean s)
    = fst (changed_submodules submodules false s)
    /\ trace (snd (changed_submodules submodules include_clean s))
       = trace (snd (changed_submodules submodules false s))
    /\ world (snd (changed_submodules submodules include_clean s))
       = world (snd (changed_submodules submodules false s))
    /\ sys_stdout (snd (changed_submodules submodules include_clean s))
       = sys_stdout (snd (changed_submodules submodules false s)).
Proof.
  intros submodules include_clean s. unfold changed_submodules.
  destruct (changed_submodules_loop_flag submodules include_clean false [] s s)
    as (Hres & Hw & Ht & Ho & _); [unfold same_but_stderr; auto|].
  auto.
Qed.

End MoreDispatcher.

(** ** The registry: reading the manifest and resolving names *)

Section Registry.
Context {P : Platform}.

Lemma load_submodules_loop_entries root sections :
  forall acc,
    load_submodules_loop root sections acc = acc ++ entries_of root sections.
Proof.
  induction sections as [|[section p] rest IH]; intros acc; cbn.
  - now rewrite app_nil_r.
  - unfold entry_of. cbn [fst snd]. destruct p as [p|]; [|apply IH].
    destruct (PyStr.truthy p); [|apply IH].
    now rewrite IH, <- app_assoc.
Qed.

Lemma entries_of_paths root sections m :
  In m (entries_of root sections) ->
  exists section p,
    In (section, Some p) sections /\ p <> ""
    /\ path m = path_join root p
    /\ name m = PyStr.strip_chars PyStr.dquote (PyStr.split1_last section).
Proof.
  induction sections as [|[section p] rest IH]; cbn; [tauto|].
  unfold entry_of at 1. cbn [fst snd].
  assert (Hrest : In m (entries_of root rest) ->
                  exists section0 p0,
                    ((section, p) = (section0, Some p0)
                     \/ In (section0, Some p0) rest)
                    /\ p0 <> ""
                    /\ path m = path_join root p0
                    /\ name m = PyStr.strip_chars PyStr.dquote
                                  (PyStr.split1_last section0)).
  { intros H. destruct (IH H) as (s0 & p0 & Hin & Hrest). exists s0, p0. auto. }
  destruct p as [p|]; [|exact Hrest].
  destruct (PyStr.truthy p) eqn:Ht; [|exact Hrest].
  intros [<-|H]; [|now apply Hrest].
  exists section, p. cbn. split; [now left|]. split; [|auto].
  intros ->. discriminate Ht.
Qed.

(** X5. [load_submodules] only reads: it returns, in the order of the
    file, one entry for each section of the manifest that has a non-empty
    [path], and none for the others; the path of an entry is the declared
    path joined to the root. No process is run and the state is
    untouched, so a manifest without usable sections gives an empty
    registry and not an error. *)
Theorem load_submodules_entries :
  forall (root : Path) (s : State),
    let sections := config_read (path_join root ".gitmodules") (world s) in
    load_submodules root s = (Ok (entries_of root sections), s)
    /\ (length (entries_of root sections) <= length sections)%nat
    /\ (forall m, In m (entries_of root sections) ->
                  exists section p,
                    In (section, Some p) sections /\ p <> ""
                    /\ path m = path_join root p
                    /\ name m = PyStr.strip_chars PyStr.dquote
                                  (PyStr.split1_last section))%string
    /\ ((forall section p, In (section, p) sections -> p = None \/ p = Some "")
        -> entries_of root sections = [])%string.
Proof.
  intros root s sections. split; [|split; [|split]].
  - unfold load_submodules, bind, ask, ret. cbn.
    now rewrite load_submodules_loop_entries.
  - induction sections as [|sec rest IH]; cbn; [lia|].
    destruct (entry_of root sec); cbn; lia.
  - apply entries_of_paths.
  - induction sections as [|[section p] rest IH]; cbn; [reflexivity|].
    intros H. unfold entry_of. cbn [fst snd].
    destruct (H section p (or_introl eq_refl)) as [-> | ->]; cbn;
      apply IH; intros s0 p0 H0; apply (H s0 p0); now right.
Qed.

Lemma list_ascii_of_string_app a b :
  list_ascii_of_string (a ++ b)
  = list_ascii_of_string a ++ list_ascii_of_string b.
Proof. induction a as [|c a IH]; cbn; [reflexivity | now rewrite IH]. Qed.

Lemma dropwhile_none p l :
  forallb (fun c => negb (p c)) l = true -> PyStr.dropwhile p l = l.
Proof.
  destruct l as [|c l]; cbn; [reflexivity|].
  destruct (p c); cbn; [discriminate | reflexivity].
Qed.

Lemma forallb_rev {A} (f : A -> bool) l :
  forallb f (rev l) = forallb f l.
Proof.
  induction l as [|x l IH]; cbn; [reflexivity|].
  rewrite forallb_app, IH. cbn. rewrite andb_true_r. apply andb_comm.
Qed.

Lemma after_first_space_header rest :
  PyStr.after_first_space ("submodule " ++ rest) = Some rest.
Proof. reflexivity. Qed.

(** X6. The name of a submodule is read off the section header git
    writes: for a name [n] that holds no double quote, the header
    [submodule "n"] gives back [n], spaces in [n] included (the header is
    split at its first space only). *)
Theorem section_header_name :
  forall (root : Path) (n p : string),
    forallb (fun c => negb (is_dquote c)) (list_ascii_of_string n) = true ->
    p <> ""%string ->
    load_submodules_loop root [(section_header n, Some p)] []
    = [mkSubmodule n (path_join root p)].
Proof.
  intros root n p Hn Hp. rewrite load_submodules_loop_entries.
  cbn [entries_of app]. unfold entry_of. cbn [fst snd].
  replace (PyStr.truthy p) with true by (destruct p; [now elim Hp | reflexivity]).
  do 2 f_equal.
  unfold section_header, PyStr.split1_last.
  rewrite after_first_space_header.
  destruct n as [|c n']; [reflexivity|].
  unfold PyStr.strip_chars, PyStr.strip_by. fold is_dquote.
  rewrite !list_ascii_of_string_app.
  set (l := list_ascii_of_string (String c n')) in *.
  change (list_ascii_of_string PyStr.dquote) with [ascii_of_nat 34].
  cbn [app PyStr.dropwhile].
  change (is_dquote (ascii_of_nat 34)) with true. cbv iota.
  assert (H1 : PyStr.dropwhile is_dquote (l ++ [ascii_of_nat 34])
               = l ++ [ascii_of_nat 34]).
  { unfold l in *.
    cbn [list_ascii_of_string forallb app PyStr.dropwhile] in Hn |- *.
    destruct (is_dquote c); [discriminate Hn | reflexivity]. }
  rewrite H1, rev_app_distr. cbn [rev app PyStr.dropwhile].
  change (is_dquote (ascii_of_nat 34)) with true. cbv iota.
  rewrite dropwhile_none by now rewrite forallb_rev.
  rewrite rev_involutive. unfold l. apply string_of_list_ascii_of_string.
Qed.

Lemma dict_get_dict_set d k v n :
  dict_get (dict_set d k v) n
  = if String.eqb k n then Some v else dict_get d n.
Proof.
  induction d as [|[k' v'] d IH]; cbn; [reflexivity|].
  destruct (String.eqb k' k) eqn:E; cbn.
  - apply String.eqb_eq in E. subst k'. now destruct (String.eqb k n).
  - destruct (String.eqb k' n) eqn:E'.
    + destruct (String.eqb k n) eqn:E''; [|reflexivity].
      apply String.eqb_eq in E', E''. subst.
      now rewrite String.eqb_refl in E.
    + exact IH.
Qed.

Lemma find_app {A} (f : A -> bool) l1 l2 :
  find f (l1 ++ l2)
  = match find f l1 with Some x => Some x | None => find f l2 end.
Proof.
  induction l1 as [|x l1 IH]; cbn; [reflexivity|]. now destruct (f x).
Qed.

Lemma dict_get_fold submodules : forall d n,
  dict_get (fold_left (fun d m => dict_set d (name m) m) submodules d) n
  = match last_named submodules n with
    | Some m => Some m
    | None => dict_get d n
    end.
Proof.
  unfold last_named.
  induction submodules as [|m rest IH]; intros d n; cbn [fold_left rev].
  - reflexivity.
  - rewrite IH, find_app, dict_get_dict_set. cbn [find].
    destruct (find _ (rev rest)); [reflexivity|].
    now destruct (String.eqb (name m) n).
Qed.

(** The dictionary of [resolve_targets] maps a name to the last submodule
    of the registry that bears it. *)
Lemma dict_get_name_map submodules n :
  dict_get (name_map_of submodules) n = last_named submodules n.
Proof.
  unfold name_map_of. rewrite dict_get_fold.
  now destruct (last_named submodules n).
Qed.

Lemma last_named_sound submodules n m :
  last_named submodules n = Some m -> name m = n /\ In m submodules.
Proof.
  unfold last_named. intros H. apply find_some in H. destruct H as [Hin Hn].
  split; [now apply String.eqb_eq | now apply in_rev].
Qed.

Lemma last_named_known submodules n :
  In n (map name submodules) -> exists m, last_named submodules n = Some m.
Proof.
  intros H. apply in_map_iff in H. destruct H as (m & Hn & Hin).
  unfold last_named.
  destruct (find _ (rev submodules)) as [x|] eqn:E; [now exists x|].
  apply in_rev in Hin. apply (find_none _ _ E) in Hin.
  rewrite Hn, String.eqb_refl in Hin. discriminate.
Qed.

Lemma lookup_all_known submodules names :
  (forall n, In n names -> In n (map name submodules)) ->
  Forall2 (fun n m => last_named submodules n = Some m) names
          (lookup_all (name_map_of submodules) names).
Proof.
  induction names as [|n names IH]; intros H; cbn; [constructor|].
  rewrite dict_get_name_map.
  destruct (last_named_known submodules n (H n (or_introl eq_refl)))
    as (m & Hm).
  rewrite Hm. constructor; [exact Hm|]. apply IH. intros x Hx. apply H.
  now right.
Qed.

(** X7. [resolve_targets] only reads. Without names (no list or an empty
    one) it returns the whole registry. With names that are all in the
    registry it returns one submodule per name, in the order of the names
    and with repetitions kept; each bears the name asked for and comes from
    the registry, and when several entries share a name the last one of
    the manifest is taken. *)
Theorem resolve_targets_known_names :
  forall (root : Path) (submodules : list Submodule) (names : list string)
         (s : State),
    resolve_targets root submodules None s = (Ok submodules, s)
    /\ resolve_targets root submodules (Some []) s = (Ok submodules, s)
    /\ ((forall n, In n names -> In n (map name submodules)) ->
        names <> [] ->
        exists targets,
          resolve_targets root submodules (Some names) s = (Ok targets, s)
          /\ map name targets = names
          /\ (forall m, In m targets -> In m submodules)
          /\ Forall2 (fun n m => last_named submodules n = Some m)
               names targets).
Proof.
  intros root submodules names s. split; [reflexivity|].
  split; [reflexivity|]. intros Hknown Hne.
  pose proof (lookup_all_known submodules names Hknown) as Hall.
  exists (lookup_all (name_map_of submodules) names).
  split; [|split; [|split; [|exact Hall]]].
  - unfold resolve_targets. destruct names as [|n names']; [now elim Hne|].
    rewrite missing_unknown.
    replace (nonempty (unknown_names submodules (n :: names'))) with false;
      [reflexivity|].
    symmetry. unfold unknown_names.
    apply (nonempty_filter_false _ (n :: names')). intros x Hx.
    apply Hknown, in_map_iff in Hx. destruct Hx as (m & Hm & Hin).
    apply negb_false_iff, existsb_exists. exists (name m).
    split; [now apply in_map | rewrite Hm; apply String.eqb_refl].
  - clear Hne Hknown. induction Hall as [|n m ns ms Hm _ IH]; cbn;
      [reflexivity|].
    apply last_named_sound in Hm. destruct Hm as [-> _]. now rewrite IH.
  - clear Hne Hknown. induction Hall as [|n m ns ms Hm _ IH]; cbn; [tauto|].
    intros x [<-|Hx]; [now apply last_named_sound in Hm | now apply IH].
Qed.

End Registry.

(** ** Further properties of the publisher *)

Section MorePublisher.
Context {P : Platform}.

(** X8. For a submodule that is on a branch, the step of [push] pushes
    that very branch: after the query for the current branch it runs one
    [git push] of the branch to the remote, with [-u] exactly when the
    upstream is to be set. It reports the push when git succeeds, and
    raises the diagnostic of git without a report when it fails. *)
Theorem push_step_pushes_current_branch :
  forall (remote : string) (set_upstream : bool) (m : Submodule) (s : State)
         (b : string),
    current_of (git_result (path m) ["rev-parse"; "--abbrev-ref"; "HEAD"] s)
    = Some b ->
    b <> ""%string ->
    exists r s',
      push_step remote set_upstream m s
      = (if returncode r =? 0 then Ok tt
         else Raise (WorkflowError (diagnostic r)), s')
      /\ trace s'
         = trace s
           ++ [Exec (current_branch_cmd (path m))
                    (git_result (path m)
                       ["rev-parse"; "--abbrev-ref"; "HEAD"] s);
               Exec (git_cmd (path m) (push_args remote b set_upstream)) r]
      /\ sys_stdout s'
         = sys_stdout s
           ++ (if returncode r =? 0 then [pushed_line remote b m] else []).
Proof.
  intros remote set_upstream m s b Hcur Hb.
  unfold push_step. rewrite bind_get_current_branch, Hcur.
  replace (PyStr.truthy b) with true by (destruct b; [now elim Hb | reflexivity]).
  set (s1 := st_git (path m) ["rev-parse"; "--abbrev-ref"; "HEAD"] s).
  assert (T1 : trace s1 = trace s ++ [Exec (current_branch_cmd (path m))
                 (git_result (path m) ["rev-parse"; "--abbrev-ref"; "HEAD"] s)])
    by apply trace_st_git.
  assert (O1 : sys_stdout s1 = sys_stdout s) by apply stdout_st_git.
  unfold push_branch. fold (push_args remote b set_upstream).
  cbv zeta. run.
  exists (git_result (path m) (push_args remote b set_upstream) s1),
         (if returncode (git_result (path m)
                           (push_args remote b set_upstream) s1) =? 0
          then st_print (pushed_line remote b m)
                 (st_git (path m) (push_args remote b set_upstream) s1)
          else st_git (path m) (push_args remote b set_upstream) s1).
  destruct (returncode _ =? 0); cbn [print st_print sys_stdout trace];
    rewrite trace_st_git, stdout_st_git, T1, O1, <- app_assoc;
    rewrite ?app_nil_r; auto.
Qed.

Lemma mr_step_no_branch target title draft m s2 s3 :
  get_current_branch (path m) s2 = (Ok None, s3) ->
  mr_step target title draft m s2
  = (Raise (WorkflowError (no_branch_message m)), s3).
Proof. intros H. unfold mr_step. now rewrite (bind_ok _ _ _ _ _ H). Qed.

(** X9. When the [mr] handler comes to a dirty submodule that has no
    current branch, it raises the workflow error that names the submodule
    right after the query for the branch: no remote URL is asked for, no
    review tool is run for it, and the submodules after it are left
    alone. *)
Theorem handle_mr_without_branch_aborts :
  forall (root : Path) (targets pre post : list Submodule) (m : Submodule)
         (target : string) (title : option string) (draft : bool)
         (s s1 s2 s3 : State),
    changed_submodules targets false s = (Ok (pre ++ m :: post), s1) ->
    for_each pre (mr_step target title draft) s1 = (Ok tt, s2) ->
    get_current_branch (path m) s2 = (Ok None, s3) ->
    handle_mr root targets target title draft s
    = (Raise (WorkflowError (no_branch_message m)), s3)
    /\ exists r, trace s3 = trace s2 ++ [Exec (current_branch_cmd (path m)) r].
Proof.
  intros root targets pre post m target title draft s s1 s2 s3
    Hscan Hpre Hcur.
  split.
  - unfold handle_mr. rewrite (bind_ok _ _ _ _ _ Hscan).
    replace (negb (nonempty (pre ++ m :: post))) with false
      by (now destruct pre).
    rewrite (for_each_app _ _ _ _ _ Hpre). cbn [for_each].
    now rewrite (bind_raise _ _ _ _ _ (mr_step_no_branch _ _ _ _ _ _ Hcur)).
  - rewrite get_current_branch_eq in Hcur. inversion Hcur.
    eexists. apply trace_st_git.
Qed.

(** X10. When the repository has no remote [origin] (the URL query exits
    with a non-zero status), [create_merge_request] raises the diagnostic
    of git at once: the query is the only process run, no review tool is
    looked for or run, and nothing is printed to the standard output. *)
Theorem create_merge_request_without_origin :
  forall (p : Path) (branch target : string) (title : option string)
         (draft : bool) (s : State),
    returncode (git_result p origin_args s) <> 0 ->
    create_merge_request p branch target title draft s
    = (Raise (WorkflowError (diagnostic (git_result p origin_args s))),
       st_git p origin_args s)
    /\ trace (st_git p origin_args s)
       = trace s ++ [Exec (git_cmd p origin_args) (git_result p origin_args s)]
    /\ sys_stdout (st_git p origin_args s) = sys_stdout s.
Proof.
  intros p branch target title draft s Hrc. apply Z.eqb_neq in Hrc.
  split; [|split; [apply trace_st_git | apply stdout_st_git]].
  unfold create_merge_request. rewrite bind_run_git_checked.
  fold origin_args. now rewrite Hrc.
Qed.

Lemma lower_app a b : PyStr.lower (a ++ b) = (PyStr.lower a ++ PyStr.lower b)%string.
Proof. induction a as [|c a IH]; cbn; [reflexivity | now rewrite IH]. Qed.

Lemma prefix_app n b : prefix n (n ++ b) = true.
Proof.
  induction n as [|c n IH]; cbn; [now destruct b|].
  destruct (ascii_dec c c) as [_|H]; [exact IH | now elim H].
Qed.

Lemma contains_prefix n s : prefix n s = true -> PyStr.contains n s = true.
Proof. intros H. destruct s; cbn [PyStr.contains]; now rewrite H. Qed.

(** A string that holds the needle contains it. *)
Lemma contains_app n a b : PyStr.contains n (a ++ n ++ b) = true.
Proof.
  induction a as [|c a IH]; cbn [String.append].
  - apply contains_prefix, prefix_app.
  - cbn [PyStr.contains].
    destruct (prefix n (String c (a ++ n ++ b))); [reflexivity|exact IH].
Qed.

Lemma length_app a b :
  String.length (a ++ b) = (String.length a + String.length b)%nat.
Proof. induction a as [|c a IH]; cbn; [reflexivity | now rewrite IH]. Qed.

Lemma substring_all n : substring 0 (String.length n) n = n.
Proof. induction n as [|c n IH]; cbn; [reflexivity | now rewrite IH]. Qed.

Lemma substring_app a n :
  substring (String.length a) (String.length n) (a ++ n) = n.
Proof. induction a as [|c a IH]; cbn; [apply substring_all | exact IH]. Qed.

(** A string that ends with the suffix is found to end with it. *)
Lemma endswith_app n a : PyStr.endswith n (a ++ n) = true.
Proof.
  unfold PyStr.endswith. rewrite length_app.
  replace (String.length a + String.length n - String.length n)%nat
    with (String.length a) by lia.
  rewrite substring_app, String.eqb_refl, andb_true_r.
  apply Nat.leb_le. lia.
Qed.

(** X11. A remote URL that ends in [.git], in any case of letters, is
    taken for GitHub: when [gh] is installed it is chosen, whether or not
    the URL names GitHub and even when [glab] is installed too, unless the
    URL names GitLab and [glab] is installed. *)
Theorem detect_mr_tool_git_suffix :
  forall (stem ext : string) (s : State),
    PyStr.lower ext = ".git"%string ->
    PyStr.contains "gitlab" (PyStr.lower (stem ++ ext))
    && which "glab" (world s) = false ->
    which "gh" (world s) = true ->
    detect_mr_tool (stem ++ ext) s = (Ok (Some "gh"%string), s).
Proof.
  intros stem ext s Hext Hlab Hgh.
  unfold detect_mr_tool, ask. rewrite Hlab, Hgh.
  rewrite lower_app, Hext, endswith_app, orb_true_r. reflexivity.
Qed.

(** X17. A remote URL that holds the word [gitlab], in any case of
    letters and anywhere in it, selects [glab] when [glab] is installed,
    whatever else the URL holds and whether or not [gh] is installed. *)
Theorem detect_mr_tool_gitlab_any_case :
  forall (before host after : string) (s : State),
    PyStr.lower host = "gitlab"%string ->
    which "glab" (world s) = true ->
    detect_mr_tool (before ++ host ++ after) s = (Ok (Some "glab"%string), s).
Proof.
  intros before host after s Hhost Hlab.
  unfold detect_mr_tool, ask.
  now rewrite !lower_app, Hhost, contains_app, Hlab.
Qed.

End MorePublisher.

(** ** What a computation leaves of the state *)

Section Keeps.
Context {P : Platform}.
Variable R : State -> State -> Prop.
Hypothesis HR : local R.

Lemma local_refl s : R s s.
Proof. apply HR. Qed.

Lemma local_trans a b c : R a b -> R b c -> R a c.
Proof. destruct HR as [[_ H] _]. apply H. Qed.

Lemma keeps_ret {A} (a : A) : keeps R (ret a).
Proof. intros s. apply local_refl. Qed.

Lemma keeps_raise {A} e : keeps R (@raise P A e).
Proof. intros s. apply local_refl. Qed.

Lemma keeps_ask {A} (f : World -> A) : keeps R (ask f).
Proof. intros s. apply local_refl. Qed.

Lemma keeps_debug msg : keeps R (debug msg).
Proof. intros s. rewrite debug_eq. apply HR. Qed.

Lemma keeps_subprocess cmd : keeps R (subprocess cmd).
Proof. intros s. apply HR. Qed.

Lemma keeps_bind {A B} (m : M A) (k : A -> M B) :
  keeps R m -> (forall a, keeps R (k a)) -> keeps R (bind m k).
Proof.
  intros Hm Hk s. unfold bind. specialize (Hm s).
  destruct (m s) as [[a|e] s1]; cbn in *; [|exact Hm].
  eapply local_trans; [exact Hm | apply Hk].
Qed.

Lemma keeps_for_each {A} (l : list A) (body : A -> M unit) :
  (forall x, keeps R (body x)) -> keeps R (for_each l body).
Proof.
  intros H. induction l as [|x l IH]; cbn [for_each];
    [apply keeps_ret | apply keeps_bind; auto].
Qed.

Lemma keeps_run_git d args check : keeps R (run_git d args check).
Proof.
  unfold run_git. apply keeps_bind; [apply keeps_debug | intros _].
  apply keeps_bind; [apply keeps_subprocess | intros r].
  destruct (_ && _); [apply keeps_raise | apply keeps_ret].
Qed.

Lemma keeps_git_status_lines p : keeps R (git_status_lines p).
Proof.
  unfold git_status_lines.
  apply keeps_bind; [apply keeps_run_git | intros r; apply keeps_ret].
Qed.

Lemma keeps_get_current_branch p : keeps R (get_current_branch p).
Proof.
  unfold get_current_branch.
  apply keeps_bind; [apply keeps_run_git | intros r; apply keeps_ret].
Qed.

Lemma keeps_changed_submodules_loop submodules include_clean :
  forall dirty, keeps R (changed_submodules_loop submodules include_clean dirty).
Proof.
  induction submodules as [|m rest IH]; intros dirty;
    cbn [changed_submodules_loop]; [apply keeps_ret|].
  apply keeps_bind; [apply keeps_git_status_lines | intros lines].
  apply keeps_bind; [|intros _; apply IH].
  destruct (_ || _); [apply keeps_debug | apply keeps_ret].
Qed.

Lemma keeps_changed_submodules submodules include_clean :
  keeps R (changed_submodules submodules include_clean).
Proof. apply keeps_changed_submodules_loop. Qed.

Lemma keeps_relative p root : keeps R (relative p root).
Proof.
  unfold relative. destruct (relative_to p root);
    [apply keeps_ret | apply keeps_raise].
Qed.

End Keeps.

(** Goes through a computation that keeps a local relation. *)
Ltac keeps_step HR :=
  match goal with
  | |- keeps _ (ret _) => apply keeps_ret; exact HR
  | |- keeps _ (raise _) => apply keeps_raise; exact HR
  | |- keeps _ (ask _) => apply keeps_ask; exact HR
  | |- keeps _ (debug _) => apply keeps_debug; exact HR
  | |- keeps _ (subprocess _) => apply keeps_subprocess; exact HR
  | |- keeps _ (run_git _ _ _) => apply keeps_run_git; exact HR
  | |- keeps _ (git_status_lines _) => apply keeps_git_status_lines; exact HR
  | |- keeps _ (get_current_branch _) =>
      apply keeps_get_current_branch; exact HR
  | |- keeps _ (changed_submodules _ _) =>
      apply keeps_changed_submodules; exact HR
  | |- keeps _ (relative _ _) => apply keeps_relative; exact HR
  | |- keeps _ (bind _ _) => apply keeps_bind; [exact HR | | intros ?]
  | |- keeps _ (for_each _ _) => apply keeps_for_each; [exact HR | intros ?]
  | |- keeps _ (if ?b then _ else _) => destruct b
  | |- keeps _ (match ?o with Some _ => _ | None => _ end) => destruct o
  end.

Section Reports.
Context {P : Platform}.

Lemma local_same_stdout : local same_stdout.
Proof.
  unfold local, preorder, same_stdout. split; [split|split].
  - reflexivity.
  - intros a b c H1 H2. congruence.
  - intros msg s. apply stdout_st_debug.
  - intros cmd s. apply stdout_st_exec.
Qed.

Lemma ensure_branch_same_stdout p branch base remote force :
  keeps same_stdout (ensure_branch p branch base remote force).
Proof.
  unfold ensure_branch. cbv zeta. repeat keeps_step local_same_stdout.
Qed.

Lemma changed_submodules_same_stdout submodules include_clean s :
  sys_stdout (snd (changed_submodules submodules include_clean s))
  = sys_stdout s.
Proof. apply (keeps_changed_submodules _ local_same_stdout). Qed.

Lemma branch_step_ok branch base remote force m s s' :
  branch_step branch base remote force m s = (Ok tt, s') ->
  sys_stdout s' = sys_stdout s ++ [checked_out_line branch m].
Proof.
  unfold branch_step. intros H. apply bind_inv_ok in H.
  destruct H as (b & s1 & Hrun & Hprint).
  pose proof (ensure_branch_same_stdout (path m) branch base remote force s)
    as Hout.
  rewrite Hrun in Hout. unfold same_stdout in Hout. cbn in Hout.
  apply ensure_branch_ok_last in Hrun. destruct Hrun as [-> _].
  unfold print in Hprint. inversion Hprint. cbn. now rewrite Hout.
Qed.

Lemma for_each_branch_ok branch base remote force modules :
  forall s s',
    for_each modules (branch_step branch base remote force) s = (Ok tt, s') ->
    sys_stdout s' = sys_stdout s ++ map (checked_out_line branch) modules.
Proof.
  induction modules as [|m rest IH]; intros s s'; cbn [for_each map].
  - unfold ret. intros H. inversion H. now rewrite app_nil_r.
  - intros H. apply bind_inv_ok in H. destruct H as ([] & s1 & Hm & Hrest).
    apply branch_step_ok in Hm. apply IH in Hrest.
    now rewrite Hrest, Hm, <- app_assoc.
Qed.

(** X12. A run of the [branch] handler that returns normally has put
    every dirty target on the requested branch and says so: the standard
    output receives one line per dirty target, in the order of the scan,
    each naming the requested branch, the submodule and its path, and
    nothing else. *)
Theorem handle_branch_reports_each :
  forall (root : Path) (targets dirty : list Submodule) (branch : string)
         (base : option string) (remote : string) (force : bool)
         (s s1 s' : State),
    changed_submodules targets false s = (Ok dirty, s1) ->
    dirty <> [] ->
    handle_branch root targets branch base remote force s = (Ok tt, s') ->
    sys_stdout s' = sys_stdout s ++ map (checked_out_line branch) dirty.
Proof.
  intros root targets dirty branch base remote force s s1 s' Hscan Hne.
  unfold handle_branch. rewrite (bind_ok _ _ _ _ _ Hscan).
  replace (negb (nonempty dirty)) with false
    by (destruct dirty; [now elim Hne | reflexivity]).
  intros H. apply for_each_branch_ok in H. rewrite H. f_equal.
  pose proof (changed_submodules_same_stdout targets false s) as Hout.
  now rewrite Hscan in Hout.
Qed.

Lemma update_parent_ok root modules :
  forall s s',
    update_parent root modules s = (Ok tt, s') ->
    exists staged,
      Forall2 (staged_ok root) modules staged
      /\ trace s' = trace s ++ map (add_event root) staged
      /\ sys_stdout s' = sys_stdout s.
Proof.
  unfold update_parent.
  induction modules as [|m rest IH]; intros s s'; cbn [for_each].
  - unfold ret. intros H. inversion H. exists []. cbn.
    rewrite app_nil_r. auto.
  - intros H. apply bind_inv_ok in H. destruct H as ([] & s1 & Hm & Hrest).
    apply IH in Hrest. destruct Hrest as (staged & Hall & Htr & Hout).
    unfold relative in Hm.
    destruct (relative_to (path m) root) as [rel|] eqn:Erel;
      [|discriminate Hm].
    rewrite bind_ret, bind_run_git_checked in Hm.
    destruct (returncode (git_result root ["add"; rel] s) =? 0) eqn:Erc;
      [|discriminate Hm].
    unfold ret in Hm. inversion Hm. subst s1.
    exists ((rel, git_result root ["add"; rel] s) :: staged).
    split; [|split].
    + constructor; [|exact Hall]. split; [exact Erel|].
      now apply Z.eqb_eq.
    + rewrite Htr, trace_st_git, <- app_assoc. reflexivity.
    + now rewrite Hout, stdout_st_git.
Qed.

Lemma staged_report_ok root modules :
  forall staged s s',
    Forall2 (staged_ok root) modules staged ->
    for_each modules (fun module =>
      rel <- relative (path module) root ;;
      print ("Staged updated hash for " ++ name module ++ " (" ++ rel ++ ")."))
      s = (Ok tt, s') ->
    trace s' = trace s
    /\ sys_stdout s'
       = sys_stdout s
         ++ map (fun ms => staged_line (fst ms) (fst (snd ms)))
                (combine modules staged).
Proof.
  induction modules as [|m rest IH]; intros staged s s' Hall;
    cbn [for_each].
  - unfold ret. intros H. inversion H. cbn. now rewrite app_nil_r.
  - inversion Hall as [|m0 sr rest0 staged' [Hrel _] Hrest]; subst.
    unfold relative at 1. rewrite Hrel. rewrite bind_bind, bind_ret.
    intros H. apply bind_inv_ok in H. destruct H as ([] & s1 & Hm & Hloop).
    unfold print in Hm. inversion Hm. subst s1.
    destruct (IH _ _ _ Hrest Hloop) as (Htr & Hout).
    split; [exact Htr|]. rewrite Hout. cbn. now rewrite <- app_assoc.
Qed.

(** X13. A run of the [update-parent] handler that returns normally with
    dirty targets has staged each of them in the parent repository, once
    and in the order of the scan: after the scan it ran exactly one
    [git add] per dirty target, in the root, on the path of the target
    relative to the root, each with exit status 0, and it printed one line
    per target with that relative path. *)
Theorem handle_update_parent_stages_each :
  forall (root : Path) (targets dirty : list Submodule) (s s1 s' : State),
    changed_submodules targets false s = (Ok dirty, s1) ->
    dirty <> [] ->
    handle_update_parent root targets s = (Ok tt, s') ->
    exists staged,
      Forall2 (staged_ok root) dirty staged
      /\ trace s' = trace s1 ++ map (add_event root) staged
      /\ sys_stdout s'
         = sys_stdout s
           ++ map (fun ms => staged_line (fst ms) (fst (snd ms)))
                  (combine dirty staged).
Proof.
  intros root targets dirty s s1 s' Hscan Hne.
  unfold handle_update_parent. rewrite (bind_ok _ _ _ _ _ Hscan).
  replace (negb (nonempty dirty)) with false
    by (destruct dirty; [now elim Hne | reflexivity]).
  intros H. apply bind_inv_ok in H. destruct H as ([] & s2 & Hup & Hrep).
  apply update_parent_ok in Hup. destruct Hup as (staged & Hall & Htr & Hout).
  destruct (staged_report_ok _ _ _ _ _ Hall Hrep) as (Htr' & Hout').
  exists staged. split; [exact Hall|]. split; [congruence|].
  rewrite Hout', Hout. f_equal.
  pose proof (changed_submodules_same_stdout targets false s) as Hs.
  now rewrite Hscan in Hs.
Qed.

Lemma local_quiet : local quiet.
Proof.
  unfold local, preorder, quiet. split; [split|split].
  - intros s Hd. split; [exact Hd|]. exists []. now rewrite app_nil_r.
  - intros a b c Hab Hbc Hd. destruct (Hab Hd) as (Hd' & l1 & E1 & F1).
    destruct (Hbc Hd') as (Hd'' & l2 & E2 & F2). split; [exact Hd''|].
    exists (l1 ++ l2). rewrite E2, E1, app_assoc. split; [reflexivity|].
    now apply Forall_app.
  - intros msg s Hd. unfold st_debug. rewrite Hd. split; [exact Hd|].
    exists []. now rewrite app_nil_r.
  - intros cmd s Hd. rewrite DEBUG_st_exec, stderr_st_exec.
    split; [exact Hd|]. exists []. now rewrite app_nil_r.
Qed.

Lemma keeps_quiet_print line : keeps quiet (print line).
Proof.
  intros s Hd. cbn. split; [exact Hd|]. exists []. now rewrite app_nil_r.
Qed.

Lemma keeps_quiet_advice : keeps quiet (eprint advice_line).
Proof.
  intros s Hd. cbn. split; [exact Hd|]. exists [advice_line].
  split; [reflexivity | repeat constructor].
Qed.

Ltac quiet_step :=
  first
    [ keeps_step local_quiet
    | match goal with
      | |- keeps _ (print _) => apply keeps_quiet_print
      | |- keeps _ (eprint _) => apply keeps_quiet_advice
      | |- keeps _ (match ?l with [] => _ | _ :: _ => _ end) => destruct l
      | |- keeps _ (match ?c with CmdStatus => _ | _ => _ end) => destruct c
      end ].

Lemma run_quiet args : keeps quiet (run args).
Proof.
  unfold run, ensure_repo, load_submodules, resolve_targets, handle_status,
    handle_branch, handle_push, handle_mr, handle_update_parent,
    branch_step, push_step, mr_step, update_parent, ensure_branch,
    push_branch, create_merge_request, detect_mr_tool.
  cbv zeta. repeat quiet_step.
Qed.


End Reports.

(** ** The listing of the status command, and the processes of a run *)

Section Listing.
Context {P : Platform}.

Lemma for_each_print (f : string -> string) lines :
  forall s, exists s',
    for_each lines (fun line => print (f line)) s = (Ok tt, s')
    /\ trace s' = trace s
    /\ world s' = world s
    /\ sys_stdout s' = sys_stdout s ++ map f lines.
Proof.
  induction lines as [|l rest IH]; intros s; cbn [for_each map].
  - exists s. rewrite app_nil_r. auto.
  - destruct (IH (st_print (f l) s)) as (s' & Hrun & Ht & Hw & Ho).
    exists s'. unfold bind, print at 1. rewrite Hrun.
    cbn in Ht, Hw, Ho. rewrite Ho, <- app_assoc. auto.
Qed.

Lemma status_display_each modules :
  forall s, exists results s',
    for_each modules (fun module =>
      lines <- git_status_lines (path module) ;;
      print (name module ++ " (" ++ path module ++ "):") ;;
      if nonempty lines then
        for_each lines (fun line => print ("  " ++ line))
      else print "  clean") s = (Ok tt, s')
    /\ length results = length modules
    /\ trace s' = trace s ++ map status_event (combine modules results)
    /\ answers (map status_event (combine modules results)) (world s)
    /\ sys_stdout s'
       = sys_stdout s ++ flat_map status_block (combine modules results).
Proof.
  induction modules as [|m rest IH]; intros s; cbn [for_each].
  - exists [], s. cbn. rewrite !app_nil_r. auto.
  - rewrite bind_bind, bind_git_status_lines.
    set (r := git_result (path m) ["status"; "--porcelain"] s).
    set (s1 := st_git (path m) ["status"; "--porcelain"] s).
    set (header := (name m ++ " (" ++ path m ++ "):")%string).
    assert (Hblock : exists s2,
               (print header ;;
                if nonempty (status_lines r)
                then for_each (status_lines r)
                       (fun line => print ("  " ++ line))
                else print "  clean") s1 = (Ok tt, s2)
               /\ trace s2 = trace s1 /\ world s2 = world s1
               /\ sys_stdout s2 = sys_stdout s1 ++ status_block (m, r)).
    { unfold status_block. cbn [fst snd]. fold header.
      unfold bind, print at 1.
      destruct (nonempty (status_lines r)).
      - destruct (for_each_print (fun line => ("  " ++ line)%string)
                    (status_lines r) (st_print header s1))
          as (s2 & Hrun & Ht & Hw & Ho).
        exists s2. rewrite Hrun. cbn in Ht, Hw, Ho.
        rewrite Ho, <- app_assoc. auto.
      - eexists. split; [reflexivity|]. cbn. rewrite <- app_assoc. auto. }
    destruct Hblock as (s2 & Hrun2 & Ht2 & Hw2 & Ho2).
    rewrite (bind_ok _ _ _ _ _ Hrun2).
    destruct (IH s2) as (results & s' & Hrun & Hlen & Htr & Hans & Hout).
    exists (r :: results), s'. cbn [combine map flat_map length].
    split; [exact Hrun|]. split; [now rewrite Hlen|].
    unfold s1 in *. rewrite trace_st_git in Ht2. rewrite world_st_git in Hw2.
    rewrite stdout_st_git in Ho2.
    split; [|split].
    + rewrite Htr, Ht2, <- app_assoc. reflexivity.
    + rewrite Hw2 in Hans. split; [reflexivity | exact Hans].
    + rewrite Hout, Ho2, <- app_assoc. reflexivity.
Qed.

(** X15. The [status] handler never fails and lists what it shows, in
    order: for the submodules it shows (all the targets with
    [include_clean], the dirty ones of the scan otherwise, at least one) it
    asks git for the status of each once more and prints a header line
    with the name and the path, followed by the status lines behind two
    spaces, or by the word [clean] when that query gave no line. *)
Theorem handle_status_lists_each :
  forall (root : Path) (targets modules : list Submodule)
         (include_clean : bool) (s s1 : State),
    (if include_clean then ret targets
     else changed_submodules targets false) s = (Ok modules, s1) ->
    modules <> [] ->
    exists results s',
      handle_status root targets include_clean s = (Ok tt, s')
      /\ length results = length modules
      /\ trace s' = trace s1 ++ map status_event (combine modules results)
      /\ answers (map status_event (combine modules results)) (world s1)
      /\ sys_stdout s'
         = sys_stdout s1 ++ flat_map status_block (combine modules results).
Proof.
  intros root targets modules include_clean s s1 Hmods Hne.
  destruct (status_display_each modules s1)
    as (results & s' & Hrun & Hrest).
  exists results, s'. split; [|exact Hrest].
  unfold handle_status. rewrite (bind_ok _ _ _ _ _ Hmods).
  replace (negb (nonempty modules)) with false
    by (destruct modules; [now elim Hne | reflexivity]).
  exact Hrun.
Qed.

Lemma allowed_git d sub rest r :
  In sub git_subcommands -> allowed (Exec (git_cmd d (sub :: rest)) r).
Proof. intros H. left. now exists d, sub, rest. Qed.

Lemma emits_allowed_git d sub rest check :
  In sub git_subcommands ->
  emits (all allowed) (run_git d (sub :: rest) check).
Proof.
  intros H. apply emits_run_git; intros r; intros;
    (constructor; [now apply allowed_git | constructor]).
Qed.

Lemma emits_allowed_review tool branch target title draft :
  emits (all allowed)
        (subprocess (mr_command tool branch target title draft)).
Proof.
  intros s.
  exists [Exec (mr_command tool branch target title draft)
               (exec_result (mr_command tool branch target title draft) s)].
  cbn. autorewrite with state.
  split; [reflexivity|]. split; [|auto].
  constructor; [right; apply is_review_mr_command | constructor].
Qed.

Ltac allowed_step :=
  match goal with
  | |- closed (all _) => apply closed_all
  | |- emits _ (ret _) => apply emits_ret
  | |- emits _ (raise _) => apply emits_raise; constructor
  | |- emits _ (print _) => apply emits_print
  | |- emits _ (eprint _) => apply emits_eprint
  | |- emits _ (debug _) => apply emits_debug
  | |- emits _ (ask _) => apply emits_ask
  | |- emits _ (subprocess (mr_command _ _ _ _ _)) =>
      apply emits_allowed_review
  | |- emits _ (run_git _ (if ?b then _ else _) _) => destruct b
  | |- emits _ (run_git _ (_ :: _) _) =>
      apply emits_allowed_git; cbn; tauto
  | |- emits _ (changed_submodules _ _) =>
      apply emits_scan; [ | intros ? ? ]
  | |- emits _ (git_status_lines _) => unfold git_status_lines
  | |- emits _ (bind _ _) => apply emits_bind; [ | | intros ? ]
  | |- emits _ (for_each _ _) => apply emits_for_each; [ | intros ? ? ]
  | |- emits _ (if ?b then _ else _) => destruct b
  | |- emits _ (match ?o with Some _ => _ | None => _ end) => destruct o
  | |- emits _ (match ?l with [] => _ | _ :: _ => _ end) => destruct l
  | |- emits _ (match ?c with CmdStatus => _ | _ => _ end) => destruct c
  end.

Lemma run_allowed args : emits (all allowed) (run args).
Proof.
  unfold run, ensure_repo, load_submodules, resolve_targets, handle_status,
    handle_branch, handle_push, handle_mr, handle_update_parent,
    branch_step, push_step, mr_step, update_parent, relative, ensure_branch,
    push_branch, create_merge_request, detect_mr_tool, get_current_branch,
    git_status_lines.
  cbv zeta. repeat allowed_step.
Qed.

(** X16. Whatever the arguments and whatever the processes answer, [main]
    runs no program but git and the two review tools, and of git only the
    subcommands [status], [rev-parse], [checkout], [fetch], [pull],
    [push], [remote] and [add]. The trace only grows, it holds what the
    platform answered, and the world [main] leaves is the one these
    processes left: the script changes nothing by itself. *)
Theorem main_runs_only_allowed_processes :
  forall (args : Args) (s : State),
    exists evs,
      trace (snd (main args s)) = trace s ++ evs
      /\ Forall allowed evs
      /\ answers evs (world s)
      /\ world (snd (main args s)) = replay evs (world s).
Proof.
  intros args s. rewrite main_eq. unfold try_except.
  destruct (run_allowed args (st_set_debug (verbose args) s))
    as (evs & Ht & Hall & Hans & Hw & _).
  exists evs.
  destruct (run args (st_set_debug (verbose args) s)) as [[code|[msg|msg]] s1];
    cbn in *; auto.
Qed.

End Listing.

(** ** The script on the concrete platform *)

Module Runs.
Import Demo.

(** *** Git of the concrete platform keeps the contract of the idempotence theorem *)

Lemma find_repo_put w p r r' :
  find_repo p w = Some r -> dir r' = dir r ->
  find_repo p (put_repo r' w) = Some r'.
Proof.
  unfold find_repo, put_repo. cbn [repos]. intros Hfind Hdir.
  assert (Hp : dir r' = p).
  { apply find_some in Hfind. rewrite Hdir. now apply String.eqb_eq. }
  clear Hdir. subst p. revert Hfind.
  induction (repos w) as [|x l IH]; [discriminate|].
  cbn [find map].
  destruct (String.eqb (dir x) (dir r')) eqn:E.
  - intros _. now rewrite String.eqb_refl.
  - rewrite E. exact IH.
Qed.

Lemma demo_head_query_reads_only p : head_query_reads_only p.
Proof.
  intros w. cbn. now destruct (find_repo p w).
Qed.

Lemma demo_checkout_moves_head :
  checkout_moves_head "/ape/vendor/lib" "feature-x".
Proof.
  intros w args Hin.
  assert (Hcur : forall r, find_repo "/ape/vendor/lib" w = Some r ->
            current_of
              (fst (subprocess_run (current_branch_cmd "/ape/vendor/lib")
                      (put_repo (switch "feature-x" r) w)))
            = Some "feature-x").
  { intros r Hr. cbn [subprocess_run platform run current_branch_cmd git_cmd].
    now rewrite (find_repo_put _ _ _ (switch "feature-x" r) Hr eq_refl). }
  destruct Hin as [<-|[<-|[<-|[]]]];
    cbn [subprocess_run platform run git_cmd];
    destruct (find_repo "/ape/vendor/lib" w) as [r|] eqn:Hr;
    try (cbn; discriminate);
    cbn [git]; try destruct (mem "feature-x" (branches r));
    cbn [fst snd done failed returncode]; try discriminate;
    intros _; now apply Hcur.
Qed.

(** *** Runs that meet the hypotheses of the theorems *)


Lemma main_no_submodules_witness :
  exists s',
    main (args_of (Some ["ghost"]) (CmdPush "origin" false)) (start bare)
    = (Ok 0, s')
    /\ sys_stdout s' = ["No submodules registered in .gitmodules."%string]
    /\ sys_stderr s' = []
    /\ trace s' = []
    /\ world s' = bare.
Proof.
  apply (main_no_submodules
           (args_of (Some ["ghost"]) (CmdPush "origin" false)) (start bare)
           "/ape"); reflexivity.
Defined.

Lemma main_unknown_targets_witness :
  exists s',
    main (args_of (Some ["lib"; "ghost"; "nope"]) CmdStatus) (start disk)
    = (Ok 1, s')
    /\ sys_stderr s' = ["Error: Unknown submodule(s): ghost, nope"%string]
    /\ sys_stdout s' = []
    /\ trace s' = []
    /\ world s' = disk.
Proof.
  apply (main_unknown_targets
           (args_of (Some ["lib"; "ghost"; "nope"]) CmdStatus) (start disk)
           "/ape" [m_lib; m_docs] ["lib"; "ghost"; "nope"] "ghost").
  - reflexivity.
  - reflexivity.
  - discriminate.
  - reflexivity.
  - cbn. auto.
  - cbn. intros [H|[H|[]]]; discriminate H.
Defined.

Lemma push_detached_head_aborts_witness :
  main (args_of None (CmdPush "origin" true)) (start three)
  = (Ok 1,
     st_eprint "Error: Submodule b is in a detached HEAD state; cannot push without a branch."
       three_asked_b)
  /\ exists r,
       trace (snd (main (args_of None (CmdPush "origin" true)) (start three)))
       = trace three_pushed_a ++ [Exec (current_branch_cmd "/ape/b") r].
Proof.
  apply (push_detached_head_aborts
           (args_of None (CmdPush "origin" true)) (start three) "/ape"
           [m_a; m_b; m_c] [m_a; m_b; m_c] [m_a] [m_c] m_b "origin" true
           three_scanned three_pushed_a three_asked_b).
  - reflexivity.
  - reflexivity.
  - discriminate.
  - reflexivity.
  - reflexivity.
  - reflexivity.
  - reflexivity.
  - reflexivity.
Defined.

(** The four cases of [ensure_branch]: the branch is current; the branch
    exists; a base is given and the tree is clean (its remote is down, the
    fetch and the pull fail, and the branch is created all the same); the
    tree has changes and [force] is set. *)
Lemma ensure_branch_case_order_witness :
  (ensure_branch "/ape/vendor/lib" "main" None "origin" false (start disk)
   = (Ok "main",
      st_git "/ape/vendor/lib" ["rev-parse"; "--abbrev-ref"; "HEAD"]
        (start disk)))
  /\ (exists r,
        fst (ensure_branch "/ape/a" "main" None "origin" false (start three))
        = (if returncode r =? 0 then Ok "main"
           else Raise (WorkflowError (diagnostic r)))
        /\ map event_cmd
             (trace (snd (ensure_branch "/ape/a" "main" None "origin" false
                            (start three))))
           = [git_cmd "/ape/a" ["rev-parse"; "--abbrev-ref"; "HEAD"];
              git_cmd "/ape/a" ["rev-parse"; "--verify"; "main"];
              git_cmd "/ape/a" ["checkout"; "main"]])
  /\ (exists r_pull r,
        fst (ensure_branch "/ape/docs" "feature-x" (Some "main") "origin"
               false (start offline))
        = (if returncode r =? 0 then Ok "feature-x"
           else Raise (WorkflowError (diagnostic r)))
        /\ returncode r_pull = 128
        /\ map event_cmd
             (trace (snd (ensure_branch "/ape/docs" "feature-x" (Some "main")
                            "origin" false (start offline))))
           = [git_cmd "/ape/docs" ["rev-parse"; "--abbrev-ref"; "HEAD"];
              git_cmd "/ape/docs" ["rev-parse"; "--verify"; "feature-x"];
              git_cmd "/ape/docs" ["status"; "--porcelain"];
              git_cmd "/ape/docs" ["fetch"; "origin"; "main"];
              git_cmd "/ape/docs" ["checkout"; "main"];
              git_cmd "/ape/docs" ["pull"; "origin"; "main"];
              git_cmd "/ape/docs" ["checkout"; "-b"; "feature-x"]])
  /\ (exists r,
        fst (ensure_branch "/ape/vendor/lib" "feature-x" (Some "main")
               "origin" true (start disk))
        = (if returncode r =? 0 then Ok "feature-x"
           else Raise (WorkflowError (diagnostic r)))
        /\ map event_cmd
             (trace (snd (ensure_branch "/ape/vendor/lib" "feature-x"
                            (Some "main") "origin" true (start disk))))
           = [git_cmd "/ape/vendor/lib" ["rev-parse"; "--abbrev-ref"; "HEAD"];
              git_cmd "/ape/vendor/lib" ["rev-parse"; "--verify"; "feature-x"];
              git_cmd "/ape/vendor/lib" ["status"; "--porcelain"];
              git_cmd "/ape/vendor/lib" ["checkout"; "-B"; "feature-x"]]).
Proof.
  split; [|split; [|split]].
  - destruct (ensure_branch_case_order "/ape/vendor/lib" "main" None "origin"
                false (start disk)) as (H1 & _).
    apply H1. reflexivity.
  - destruct (ensure_branch_case_order "/ape/a" "main" None "origin" false
                (start three)) as (_ & H2 & _).
    destruct H2 as (r & Hres & Htr); [discriminate | reflexivity |].
    exists r. split; [exact Hres|]. rewrite Htr. reflexivity.
  - destruct (ensure_branch_case_order "/ape/docs" "feature-x" (Some "main")
                "origin" false (start offline)) as (_ & _ & H3 & _).
    destruct (H3 ltac:(discriminate) ltac:(discriminate) "main" eq_refl
                ltac:(discriminate) eq_refl)
      as (r_fetch & r_base & Hfail & Hok).
    destruct (Z.eq_dec (returncode r_base) 0) as [Hz|Hnz].
    + destruct (Hok Hz) as (r_pull & r & Hres & Htr).
      exists r_pull, r. split; [exact Hres|].
      split; [|rewrite Htr; reflexivity].
      vm_compute in Htr. now inversion Htr.
    + destruct (Hfail Hnz) as (Hres & _). vm_compute in Hres. discriminate.
  - destruct (ensure_branch_case_order "/ape/vendor/lib" "feature-x"
                (Some "main") "origin" true (start disk)) as (_ & _ & _ & H4).
    destruct H4 as (r & Hres & Htr);
      [discriminate | discriminate | right; right; discriminate |].
    exists r. split; [exact Hres|]. rewrite Htr. reflexivity.
Defined.

(** A checkout that fails: the base [gone] is no branch of the clean
    submodule [docs]. *)
Lemma ensure_branch_checkout_failure_witness :
  let result :=
    ensure_branch "/ape/docs" "feature-x" (Some "gone") "origin" false
      (start disk) in
  exists pre e,
    trace (snd result) = pre ++ [e]
    /\ is_checkout "/ape/docs" e
    /\ returncode (event_result e) <> 0
    /\ fst result
       = Raise (WorkflowError
                  "error: pathspec 'gone' did not match any file(s) known to git").
Proof.
  intros result.
  destruct (ensure_branch_checkout_failure_aborts "/ape/docs" "feature-x"
              (Some "gone") "origin" false (start disk))
    as [(evs & Ht & _ & _ & _ & Hraise) _].
  fold result in Ht, Hraise.
  destruct (Hraise
              (WorkflowError
                 "error: pathspec 'gone' did not match any file(s) known to git")
              eq_refl)
    as (pre & e & -> & Hc & Hrc & _).
  exists pre, e. rewrite Ht. cbn [trace start app]. auto.
Defined.

(** *** Runs that meet the hypotheses of the further properties *)

Lemma main_missing_manifest_witness :
  exists s',
    main (args_of None CmdStatus) (start no_manifest) = (Ok 1, s')
    /\ sys_stderr s'
       = ["Error: Expected to find a .gitmodules file in /ape; is this the ape repository?"%string]
    /\ sys_stdout s' = []
    /\ trace s' = []
    /\ world s' = no_manifest.
Proof.
  apply (main_missing_manifest (args_of None CmdStatus) (start no_manifest)).
  reflexivity.
Defined.

Lemma handlers_without_dirty_targets_witness :
  handle_push "/ape" [m_docs] "origin" true (start disk)
  = (Ok tt,
     st_print "No dirty submodules detected; nothing to push." docs_scanned)
  /\ handle_update_parent "/ape" [m_docs] (start disk)
     = (Ok tt,
        st_print "No dirty submodules detected; nothing to stage in the parent."
          docs_scanned).
Proof.
  destruct (handlers_without_dirty_targets "/ape" [m_docs] (start disk)
              docs_scanned "feature-x" None "origin" false "origin" true
              "main" None false eq_refl)
    as (_ & _ & Hpush & _ & Hstage).
  split; assumption.
Defined.

Lemma main_status_reads_only_witness :
  fst (main (args_of (Some ["docs"; "lib"]) CmdStatus) (start disk)) = Ok 0
  /\ exists evs,
       trace (snd (main (args_of (Some ["docs"; "lib"]) CmdStatus)
                     (start disk)))
       = [] ++ evs
       /\ Forall (is_status_of [m_docs; m_lib]) evs.
Proof.
  apply (main_status_reads_only (args_of (Some ["docs"; "lib"]) CmdStatus)
           (start disk) "/ape" [m_lib; m_docs] [m_docs; m_lib]);
    reflexivity.
Defined.

Lemma section_header_name_witness :
  load_submodules_loop "/ape"
    [(section_header "my lib", Some "vendor/my lib")] []
  = [mkSubmodule "my lib" "/ape/vendor/my lib"].
Proof.
  exact (section_header_name "/ape" "my lib" "vendor/my lib" eq_refl
           ltac:(discriminate)).
Defined.

Lemma resolve_targets_known_names_witness :
  exists targets,
    resolve_targets "/ape" twins (Some ["docs"; "lib"; "docs"]) (start disk)
    = (Ok targets, start disk)
    /\ map name targets = ["docs"; "lib"; "docs"]
    /\ (forall m, In m targets -> In m twins)
    /\ Forall2 (fun n m => last_named twins n = Some m)
         ["docs"; "lib"; "docs"] targets.
Proof.
  destruct (resolve_targets_known_names "/ape" twins ["docs"; "lib"; "docs"]
              (start disk)) as (_ & _ & H).
  apply H; [|discriminate].
  cbn. intros n [<-|[<-|[<-|[]]]]; auto.
Defined.

Lemma push_step_pushes_current_branch_witness :
  exists r s',
    push_step "origin" true m_a (start three)
    = (if returncode r =? 0 then Ok tt
       else Raise (WorkflowError (diagnostic r)), s')
    /\ trace s'
       = trace (start three)
         ++ [Exec (current_branch_cmd "/ape/a")
                  (git_result "/ape/a" ["rev-parse"; "--abbrev-ref"; "HEAD"]
                     (start three));
             Exec (git_cmd "/ape/a" (push_args "origin" "topic" true)) r]
    /\ sys_stdout s'
       = sys_stdout (start three)
         ++ (if returncode r =? 0 then [pushed_line "origin" "topic" m_a]
             else []).
Proof.
  apply (push_step_pushes_current_branch "origin" true m_a (start three)
           "topic"); [reflexivity | discriminate].
Defined.

Lemma handle_mr_without_branch_aborts_witness :
  handle_mr "/ape" [m_b; m_c] "main" None false (start three)
  = (Raise (WorkflowError
              "Submodule b does not have an active branch; create one before opening an MR."),
     bc_asked_b)
  /\ exists r,
       trace bc_asked_b
       = trace bc_scanned ++ [Exec (current_branch_cmd "/ape/b") r].
Proof.
  apply (handle_mr_without_branch_aborts "/ape" [m_b; m_c] [] [m_c] m_b
           "main" None false (start three) bc_scanned bc_scanned bc_asked_b);
    reflexivity.
Defined.

Lemma create_merge_request_without_origin_witness :
  create_merge_request "/ape/a" "topic" "main" None false (start three)
  = (Raise (WorkflowError "error: No such remote 'origin'"),
     st_git "/ape/a" origin_args (start three))
  /\ trace (st_git "/ape/a" origin_args (start three))
     = trace (start three)
       ++ [Exec (git_cmd "/ape/a" origin_args)
                (git_result "/ape/a" origin_args (start three))]
  /\ sys_stdout (st_git "/ape/a" origin_args (start three))
     = sys_stdout (start three).
Proof.
  apply (create_merge_request_without_origin "/ape/a" "topic" "main" None
           false (start three)).
  discriminate.
Defined.

Lemma detect_mr_tool_git_suffix_witness :
  detect_mr_tool ("ssh://code.example.org/ape/lib" ++ ".GIT")
    (start both_tools)
  = (Ok (Some "gh"), start both_tools).
Proof.
  apply (detect_mr_tool_git_suffix "ssh://code.example.org/ape/lib" ".GIT"
           (start both_tools)); reflexivity.
Defined.

Lemma detect_mr_tool_gitlab_any_case_witness :
  detect_mr_tool ("https://github.com/ape/" ++ "GitLab" ++ "-mirror.git")
    (start both_tools)
  = (Ok (Some "glab"), start both_tools).
Proof.
  apply (detect_mr_tool_gitlab_any_case "https://github.com/ape/" "GitLab"
           "-mirror.git" (start both_tools)); reflexivity.
Defined.

Lemma handle_branch_reports_each_witness :
  sys_stdout
    (snd (handle_branch "/ape" [m_lib; m_docs] "feature-x" (Some "main")
            "origin" false (start disk)))
  = [] ++ map (checked_out_line "feature-x") [m_lib].
Proof.
  apply (handle_branch_reports_each "/ape" [m_lib; m_docs] [m_lib]
           "feature-x" (Some "main") "origin" false (start disk) both_scanned);
    [reflexivity | discriminate | reflexivity].
Defined.

Lemma handle_update_parent_stages_each_witness :
  exists staged,
    Forall2 (staged_ok "/ape") [m_lib] staged
    /\ trace (snd (handle_update_parent "/ape" [m_lib; m_docs] (start disk)))
       = trace both_scanned ++ map (add_event "/ape") staged
    /\ sys_stdout
         (snd (handle_update_parent "/ape" [m_lib; m_docs] (start disk)))
       = [] ++ map (fun ms => staged_line (fst ms) (fst (snd ms)))
                   (combine [m_lib] staged).
Proof.
  apply (handle_update_parent_stages_each "/ape" [m_lib; m_docs] [m_lib]
           (start disk) both_scanned);
    [reflexivity | discriminate | reflexivity].
Defined.


Lemma handle_status_lists_each_witness :
  exists results s',
    handle_status "/ape" [m_lib; m_docs] true (start disk) = (Ok tt, s')
    /\ length results = length [m_lib; m_docs]
    /\ trace s'
       = trace (start disk)
         ++ map status_event (combine [m_lib; m_docs] results)
    /\ answers (map status_event (combine [m_lib; m_docs] results))
         (world (start disk))
    /\ sys_stdout s'
       = sys_stdout (start disk)
         ++ flat_map status_block (combine [m_lib; m_docs] results).
Proof.
  apply (handle_status_lists_each "/ape" [m_lib; m_docs] [m_lib; m_docs] true
           (start disk) (start disk)); [reflexivity | discriminate].
Defined.

(** *** Runs on which a claim of the specification fails *)

(** A fetch that fails does not stop [ensure_branch]: the remote of the
    clean submodule [docs] is down, the fetch of the base exits with status
    128, and the call goes on to create the branch and returns normally. *)
Lemma failed_fetch_raises_nothing :
  let result :=
    ensure_branch "/ape/docs" "feature-x" (Some "main") "origin" false
      (start offline) in
  fst result = Ok "feature-x"
  /\ In (Exec (git_cmd "/ape/docs" ["fetch"; "origin"; "main"])
              (failed 128 ("fatal: unable to access the remote" ++ nl)))
        (trace (snd result)).
Proof.
  vm_compute. split; [reflexivity|]. do 3 right. left. reflexivity.
Qed.

(** A target name that is not in an empty registry is no error: the run
    reports that no submodules are registered and returns 0. *)
Lemma unknown_target_in_empty_registry :
  fst (load_submodules "/ape" (start bare)) = Ok []
  /\ In "ghost" ["ghost"]
  /\ main (args_of (Some ["ghost"]) CmdStatus) (start bare)
     = (Ok 0, st_print "No submodules registered in .gitmodules." (start bare)).
Proof.
  split; [reflexivity|]. split; [now left | reflexivity].
Qed.

(** No workflow error is raised and yet the run does not return 0: the
    manifest declares an absolute path outside the parent, and staging it
    raises the [ValueError] of [relative_to], which [main] does not catch;
    nothing is printed to the error stream. *)
Lemma value_error_leaves_main :
  let result := main (args_of None CmdUpdateParent) (start outside) in
  fst result = Raise (ValueError "/srv/ext is not in the subpath of /ape")
  /\ sys_stderr (snd result) = [].
Proof.
  vm_compute. split; reflexivity.
Qed.

End Runs.
